(** * RaphUtils: unit algebra, Stat arithmetic, growth kinetics and
    colony counts

    A shallow embedding of [raphutils/functions.py] ([units_combining])
    and [raphutils/classes.py] ([GrowthMonitoring], [Stat],
    [Denombrement]), followed by the properties established about them.

    Conventions of the embedding:
    - a Python call that can raise returns a [res]: [Ok v] or [Raise e],
      with [e] the Python exception class;
    - Python [str] is [string]; [None] where a string is expected is the
      [None] of [option string];
    - the numbers held by [Stat] and [Denombrement] are rationals ([Q]);
    - [GrowthMonitoring], which takes logarithms, is embedded twice: over
      the real numbers ([R]) for what does not depend on rounding, and
      over IEEE 754 doubles ([GrowthMonitoring64]) for the values
      themselves;
    - an in-place mutation of [self] is a state transformer on the record
      of the receiver. *)

From Stdlib Require Import ZArith QArith Qreduction Reals Lra Lia.
From Stdlib Require Import String Ascii.
From Stdlib Require Import Floats.
From stdpp Require Import base option list strings.

Local Open Scope string_scope.
Local Open Scope list_scope.

(** ** Python outcomes *)

(** The exception classes the modelled code can raise, explicitly
    ([TypeError], [ValueError]) or through a builtin operation. *)
Inductive exn : Set :=
| TypeError
| ValueError
| IndexError
| AttributeError
| ZeroDivisionError.

Inductive res (A : Type) : Type :=
| Ok (a : A)
| Raise (e : exn).
Arguments Ok {A} a.
Arguments Raise {A} e.

#[global] Instance res_ret : MRet res := fun _ a => Ok a.
#[global] Instance res_bind : MBind res := fun _ _ f m =>
  match m with
  | Ok a => f a
  | Raise e => Raise e
  end.
#[global] Instance res_fmap : FMap res := fun _ _ f m =>
  match m with
  | Ok a => Ok (f a)
  | Raise e => Raise e
  end.

(** [raises r]: the call ended in an exception. *)
Definition raises {A} (r : res A) : bool :=
  match r with
  | Ok _ => false
  | Raise _ => true
  end.

(** [l[i]] for a non-negative index: [IndexError] out of range. *)
Definition getitem {A} (l : list A) (i : nat) : res A :=
  match l !! i with
  | Some x => Ok x
  | None => Raise IndexError
  end.

(** [for x in l: s = body x s], stopping at the first exception. *)
Fixpoint for_each {A S} (l : list A) (body : A -> S -> res S) (s : S) : res S :=
  match l with
  | [] => Ok s
  | x :: l' => s' ← body x s; for_each l' body s'
  end.

(** [[f x for x in l]], stopping at the first exception. *)
Fixpoint comprehension {A B} (f : A -> res B) (l : list A) : res (list B) :=
  match l with
  | [] => Ok []
  | x :: l' => y ← f x; ys ← comprehension f l'; Ok (y :: ys)
  end.

(** [enumerate(l)] *)
Definition enumerate {A} (l : list A) : list (nat * A) :=
  zip (seq 0 (length l)) l.

(** [a and b] on conditions that may raise: [b] is evaluated only when
    [a] is true. *)
Definition and_then (a b : res bool) : res bool :=
  x ← a; if x : bool then b else Ok false.

(** ** Python strings and lists of strings *)

Module pystr.

(** [s.split(sep)] for a one-character separator: always at least one
    piece, empty pieces kept. *)
Fixpoint split (sep : ascii) (s : string) : list string :=
  match s with
  | EmptyString => [EmptyString]
  | String c s' =>
      if Ascii.eqb c sep then EmptyString :: split sep s'
      else match split sep s' with
           | [] => [String c EmptyString]
           | h :: t => String c h :: t
           end
  end.

(** [sep.join(l)] *)
Fixpoint join (sep : string) (l : list string) : string :=
  match l with
  | [] => ""
  | x :: l' =>
      match l' with
      | [] => x
      | _ :: _ => x +:+ sep +:+ join sep l'
      end
  end.

(** [u in l] *)
Definition contains (u : string) (l : list string) : bool :=
  existsb (String.eqb u) l.

(** [l.remove(u)]: drops the first element equal to [u],
    [ValueError] when there is none. *)
Fixpoint remove (u : string) (l : list string) : res (list string) :=
  match l with
  | [] => Raise ValueError
  | x :: l' =>
      if String.eqb x u then Ok l'
      else r ← remove u l'; Ok (x :: r)
  end.

(** [u.split(sep)] on a value that may be [None]: [None] has no
    attribute [split]. *)
Definition split_attr (sep : ascii) (u : option string) : res (list string) :=
  match u with
  | Some s => Ok (split sep s)
  | None => Raise AttributeError
  end.

End pystr.

(** ** raphutils/functions.py *)

Module functions.

Definition slash : ascii := "/"%char.
Definition dot : ascii := "."%char.

(** [units[i][j]] *)
Definition item2 (units : list (list string)) (i j : nat) : res string :=
  u ← getitem units i; getitem u j.

(** [len(units[i]) == n] *)
Definition len_is (units : list (list string)) (i n : nat) : res bool :=
  u ← getitem units i; Ok (length u =? n)%nat.

(** [units[1].reverse()], in place. *)
Definition reverse1 (units : list (list string)) : res (list (list string)) :=
  u1 ← getitem units 1; Ok (<[1 := reverse u1]> units).

(** Lines 52-72: the string built from the split operands. [message]
    keeps its initial value [''] when no branch assigns it. *)
Definition build_message (units : list (list string)) (operation : string)
  : res string :=
  if pystr.contains operation ["/"; "*"] then
    c11 ← and_then (len_is units 0 1) (len_is units 1 1);
    if c11 : bool then
      u00 ← item2 units 0 0;
      u10 ← item2 units 1 0;
      if String.eqb operation "/" then Ok (u00 +:+ "/" +:+ u10)
      else if String.eqb operation "*" then Ok (u00 +:+ "." +:+ u10)
      else Ok ""
    else
    c12 ← and_then (len_is units 0 1) (len_is units 1 2);
    if c12 : bool then
      units ← (if String.eqb operation "/" then reverse1 units else Ok units);
      u00 ← item2 units 0 0;
      u10 ← item2 units 1 0;
      u11 ← item2 units 1 1;
      Ok (u00 +:+ "." +:+ u10 +:+ "/" +:+ u11)
    else
    c21 ← and_then (len_is units 0 2) (len_is units 1 1);
    if c21 : bool then
      m ← (if String.eqb operation "/" then
             u00 ← item2 units 0 0;
             u01 ← item2 units 0 1;
             u10 ← item2 units 1 0;
             Ok (u00 +:+ "/" +:+ u01 +:+ u10)
           else Ok "");
      if String.eqb operation "*" then
        u00 ← item2 units 0 0;
        u10 ← item2 units 1 0;
        u01 ← item2 units 0 1;
        Ok (u00 +:+ "." +:+ u10 +:+ "/" +:+ u01)
      else Ok m
    else
    c22 ← and_then (len_is units 0 2) (len_is units 1 2);
    if c22 : bool then
      units ← (if String.eqb operation "/" then reverse1 units else Ok units);
      u00 ← item2 units 0 0;
      u10 ← item2 units 1 0;
      u01 ← item2 units 0 1;
      u11 ← item2 units 1 1;
      Ok (u00 +:+ "." +:+ u10 +:+ "/" +:+ u01 +:+ "." +:+ u11)
    else Ok ""
  else Ok "".

(** [units[1].remove(u); units[0].remove(u)] *)
Definition remove_both (u : string) (units : list (list string))
  : res (list (list string)) :=
  u1 ← getitem units 1;
  r1 ← pystr.remove u u1;
  let units := <[1 := r1]> units in
  u0 ← getitem units 0;
  r0 ← pystr.remove u u0;
  Ok (<[0 := r0]> units).

(** Body of the loop of lines 79-82. *)
Definition cancel_div (u : string) (units : list (list string))
  : res (list (list string)) :=
  u1 ← getitem units 1;
  if pystr.contains u u1 then remove_both u units else Ok units.

(** Body of the loop of lines 92-100. *)
Definition cancel_mul (iu : nat * string) (units : list (list string))
  : res (list (list string)) :=
  let '(i, u) := iu in
  if (i =? 0)%nat then
    x ← item2 units 1 (i + 1);
    if String.eqb u x then remove_both u units else Ok units
  else
    x ← item2 units 1 (i - 1);
    if String.eqb u x then remove_both u units else Ok units.

(** ['.'.join(units[0]) + '/' + '.'.join(units[1])] *)
Definition rejoin (units : list (list string)) : res string :=
  u0 ← getitem units 0;
  u1 ← getitem units 1;
  Ok (pystr.join "." u0 +:+ "/" +:+ pystr.join "." u1).

(** Lines 74-103: cancellation of the tokens of [message]. *)
Definition simplify (message operation : string) : res string :=
  let units := pystr.split dot <$> pystr.split slash message in
  copy ← getitem units 0;
  message ←
    (if String.eqb operation "/" then
       units ← for_each copy cancel_div units;
       rejoin units
     else
       u0 ← getitem units 0;
       if (length u0 =? 1)%nat then Ok (pystr.join "." u0)
       else if (length units =? 1)%nat then Ok (pystr.join "." u0)
       else
         units ← for_each (enumerate copy) cancel_mul units;
         rejoin units);
  if pystr.contains "" (pystr.split slash message)
  then getitem (pystr.split slash message) 0
  else Ok message.

Definition units_combining (units : list (option string)) (operation : string)
  : res (option string) :=
  if (2 <? length units)%nat then Raise ValueError
  else if String.eqb operation "+" then getitem units 0
  else if String.eqb operation "-" then getitem units 0
  else
    units ← comprehension (pystr.split_attr slash) units;
    message ← build_message units operation;
    message ← simplify message operation;
    Ok (Some message).

(** The numeric reductions that [classes.py] imports from this module
    ([mean], [std], [median], [first_quartile], [third_quartile], [iqr],
    [outliers], [remove_outliers]). Their definitions are not part of
    the sources, so they are parameters of the embedding. The classes
    only store or hand back what a reduction returns and never compute
    on it, so the type [V] of these values is a parameter as well. A
    reduction may raise. *)
Class Reductions (V : Type) : Type := {
  mean : list Q -> res V;
  std : list Q -> res V;
  median : list Q -> res V;
  first_quartile : list Q -> res V;
  third_quartile : list Q -> res V;
  iqr : list Q -> res V;
  outliers : list Q -> res V;
  remove_outliers : list Q -> res V;
}.

(** [math.factorial] on an int: [ValueError] below zero. *)
Definition factorial (k : Z) : res Z :=
  if (k <? 0)%Z then Raise ValueError
  else Ok (Z.of_nat (fact (Z.to_nat k))).

(** Line 171. The three factorials are ints and are evaluated first;
    their quotient and the two powers are floats, taken here as real
    numbers, so neither their rounding nor the [OverflowError] of a
    quotient beyond the doubles is followed. The exponents are not
    negative once the factorials have returned. *)
Definition bernoulli_law (x n : Z) (p : R) : res R :=
  fn ← factorial n;
  fnx ← factorial (n - x);
  fx ← factorial x;
  Ok (IZR fn / IZR (fnx * fx) * powerRZ p x * powerRZ (1 - p) (n - x))%R.

(** [sum(l)] on numbers *)
Definition pysum (l : list Q) : Q := fold_left Qplus l 0%Q.

(** [a / b] on numbers *)
Definition div (a b : Q) : res Q :=
  if Qeq_bool b 0 then Raise ZeroDivisionError else Ok (a / b)%Q.

(** [m[i][j]] on a table of numbers *)
Definition cell (m : list (list Q)) (i j : nat) : res Q :=
  r ← getitem m i; getitem r j.

(** What [prettify] returns: the int 0 for a zero, a text otherwise. *)
Inductive pretty : Type :=
| PrettyZero
| PrettyText (s : string).

(** Lines 106-123. The text built for a number that is not zero comes
    from float formatting, which is not modelled: [number_text] stands
    for it. *)
Definition prettify (number_text : Q -> string) (val : Q) : pretty :=
  if Qeq_bool val 0 then PrettyZero else PrettyText (number_text val).

(** [sep.join(l)] on the results of [prettify]: [TypeError] on an item
    that is not a string. *)
Definition join_pretty (sep : string) (l : list pretty) : res string :=
  texts ← comprehension
             (fun v => match v with
                       | PrettyText s => Ok s
                       | PrettyZero => Raise TypeError
                       end) l;
  Ok (pystr.join sep texts).

(** The two kinds of result of [positioning_chi2]. *)
Inductive chi2_position : Type :=
| Chi2Message (s : string)
| Chi2Value (x2 : Q).

(** Lines 174-182. *)
Definition positioning_chi2 (number_text : Q -> string) (obs theo : list Q)
  : res chi2_position :=
  small ← for_each (seq 0 (length obs))
             (fun i small =>
                t ← getitem theo i;
                if Qle_bool 5 t then Ok small
                else Ok (small ++ [prettify number_text t]))
             [];
  if (0 <? length small)%nat then
    texts ← join_pretty ", " small;
    Ok (Chi2Message ("np_i < 5 for " +:+ texts))
  else
    terms ← comprehension
               (fun i =>
                  o ← getitem obs i;
                  t ← getitem theo i;
                  t' ← getitem theo i;
                  div ((o - t) ^ 2) t')
               (seq 0 (length obs));
    Ok (Chi2Value (pysum terms)).

(** Lines 211-226. Counts and expected counts are taken as exact
    numbers. *)
Definition contingency_chi2 (obs : list (list Q))
  : res (Q * Z * list (list Q)) :=
  let x2 := 0%Q in
  row ← comprehension (fun i => r ← getitem obs i; Ok (pysum r))
           (seq 0 (length obs));
  first ← getitem obs 0;
  col ← comprehension
           (fun j =>
              column ← comprehension (fun i => cell obs i j)
                          (seq 0 (length obs));
              Ok (pysum column))
           (seq 0 (length first));
  let total := pysum row in
  theo ← comprehension
            (fun i =>
               comprehension
                 (fun j =>
                    ri ← getitem row i;
                    cj ← getitem col j;
                    div (ri * cj) total)
                 (seq 0 (length col)))
            (seq 0 (length row));
  x2 ← for_each (seq 0 (length obs))
          (fun i x2 =>
             first ← getitem obs 0;
             for_each (seq 0 (length first))
               (fun j x2 =>
                  o ← cell obs i j;
                  t ← cell theo i j;
                  t' ← cell theo i j;
                  q ← div ((o - t) ^ 2) t';
                  Ok (x2 + q)%Q)
               x2)
          x2;
  first ← getitem obs 0;
  Ok (x2,
      ((Z.of_nat (length obs) - 1) * (Z.of_nat (length first) - 1))%Z,
      theo).

End functions.

(** ** raphutils/classes.py: GrowthMonitoring *)

(** The constructor over the real numbers: logarithms, differences and
    quotients are exact. This embedding serves for what rounding does
    not decide (which exception is raised, how many rates there are,
    their sign); the values themselves are those of
    [GrowthMonitoring64] below. *)

(** A value of a NumPy float array whose entries come from real
    arithmetic: finite, or one of the results NumPy gives for a division
    by zero. *)
Inductive npfloat : Type :=
| Fin (x : R)
| Inf
| NegInf
| NaN.

Module GrowthMonitoring.

Local Open Scope R_scope.

(** [math.log]: [ValueError] outside the positive numbers. *)
Definition log (x : R) : res R :=
  if Rlt_dec 0 x then Ok (ln x) else Raise ValueError.

(** [x / dt] for a Python float [x] and an entry difference [dt] of the
    NumPy array [self.time]: a zero [dt] is no exception there. *)
Definition np_div (x dt : R) : npfloat :=
  if Req_dec_T dt 0 then
    if Rlt_dec 0 x then Inf
    else if Rlt_dec x 0 then NegInf
    else NaN
  else Fin (x / dt).

(** [d < 0] *)
Definition lt0 (d : npfloat) : bool :=
  match d with
  | Fin x => if Rlt_dec x 0 then true else false
  | NegInf => true
  | Inf | NaN => false
  end.

(** [m != 0] *)
Definition ne0 (m : npfloat) : bool :=
  match m with
  | Fin x => if Req_dec_T x 0 then false else true
  | Inf | NegInf | NaN => true
  end.

(** [log(2) / m] for a nonzero entry [m] of [self.µ]. *)
Definition log2_over (m : npfloat) : npfloat :=
  match m with
  | Fin x => Fin (ln 2 / x)
  | Inf | NegInf => Fin 0
  | NaN => NaN
  end.

Record t : Type := {
  name : string;
  data : list R;
  time : list R;
  µ : list npfloat;
  td : list npfloat;
}.

(** Lines 24-26: the rate appended at iteration [i]. *)
Definition growth_rate (data time : list R) (i : nat) : res npfloat :=
  a ← getitem data (i + 1);
  la ← log a;
  b ← getitem data i;
  lb ← log b;
  t1 ← getitem time (i + 1);
  t0 ← getitem time i;
  let d := np_div (la - lb) (t1 - t0) in
  Ok (if lt0 d then Fin 0 else d).

(** Lines 32-35: the doubling time appended for the rate [m]. *)
Definition doubling_time (m : npfloat) : npfloat :=
  if ne0 m then log2_over m else Fin 0.

(** The constructor; [self.package] and the plotting methods take no
    part in the rates and are left out. *)
Definition __init__ (data_name : string) (data_list time : list R) : res t :=
  rates ← comprehension (growth_rate data_list time)
                        (seq 0 (length data_list - 1));
  let µ := Fin 0 :: rates in
  Ok {| name := data_name; data := data_list; time := time;
        µ := µ; td := doubling_time <$> µ |}.

End GrowthMonitoring.

(** ** raphutils/classes.py: GrowthMonitoring on doubles *)

(** The logarithm of the C library, which [math.log] calls on a double
    that is positive and finite. Its values are those of the platform;
    the embedding takes it as a parameter. *)
Class Libm : Type := { c_log : float -> float }.

(** The same constructor with its numbers as the interpreter holds
    them. Quantities, logarithms, rates and doubling times are doubles
    with the operations of IEEE 754 (a quantity given as an int reaches
    [math.log] as the double of that value); [self.time] is a NumPy array
    of dtype int64 or float64. *)
Module GrowthMonitoring64.
Section WithLibm.

Context {libm : Libm}.

Local Open Scope float_scope.

(** [math.log] on a double: [ValueError] on zero, on a negative number
    and on -inf; NaN and +inf are handed back as they are; a result of
    the C library that is not finite is a [ValueError] as well. *)
Definition log (x : float) : res float :=
  if x <=? 0 then Raise ValueError
  else if is_nan x || is_infinity x then Ok x
  else
    let r := c_log x in
    if is_nan r || is_infinity r then Raise ValueError else Ok r.

(** The double nearest to an integer, ties to even. *)
Definition float_of_Z (z : Z) : float :=
  SF2Prim (binary_normalize prec emax z 0 false).

(** [np.array(time)]: dtype int64 for a list of ints, each of which
    fits in 64 bits, and float64 for a list of floats. *)
Inductive ndarray : Type :=
| int64 (l : list Z)
| float64 (l : list float).

(** What an int64 operation keeps of an integer: its 64 low bits, as a
    signed number. *)
Definition wrap (z : Z) : Z := ((z + 2 ^ 63) mod 2 ^ 64 - 2 ^ 63)%Z.

(** [self.time[i + 1] - self.time[i]] as the divisor of a float: an
    int64 difference wraps around and is converted to a double. *)
Definition time_step (time : ndarray) (i : nat) : res float :=
  match time with
  | int64 l =>
      t1 ← getitem l (i + 1);
      t0 ← getitem l i;
      Ok (float_of_Z (wrap (t1 - t0)))
  | float64 l =>
      t1 ← getitem l (i + 1);
      t0 ← getitem l i;
      Ok (t1 - t0)
  end.

Record t : Type := {
  name : string;
  data : list float;
  time : ndarray;
  µ : list float;
  td : list float;
}.

(** Lines 24-27: the rate appended at iteration [i]. The divisor is a
    NumPy scalar, so a division by a zero step raises nothing: it gives
    an infinity or NaN. *)
Definition growth_rate (data : list float) (time : ndarray) (i : nat)
  : res float :=
  a ← getitem data (i + 1);
  la ← log a;
  b ← getitem data i;
  lb ← log b;
  dt ← time_step time i;
  let d := (la - lb) / dt in
  Ok (if d <? 0 then 0 else d).

(** Lines 32-36: the doubling time appended at iteration [i]. *)
Definition doubling_time (µ : list float) (i : nat) : res float :=
  m ← getitem µ i;
  if negb (m =? 0) then
    l2 ← log 2;
    m ← getitem µ i;
    Ok (l2 / m)
  else Ok 0.

(** The constructor; [self.package] and the plotting methods take no
    part in the rates and are left out. *)
Definition __init__ (data_name : string) (data_list : list float)
    (time : ndarray) : res t :=
  rates ← comprehension (growth_rate data_list time)
                        (seq 0 (length data_list - 1));
  let µ := 0 :: rates in
  td ← comprehension (doubling_time µ) (seq 0 (length µ));
  Ok {| name := data_name; data := data_list; time := time;
        µ := µ; td := td |}.

End WithLibm.
End GrowthMonitoring64.

(** ** raphutils/classes.py: Stat *)

Module Stat.
Section WithReductions.

Context {V : Type} {red : functions.Reductions V}.

Record t : Type := {
  name : string;
  data : list Q;
  unit : option string;
  discrete : bool;
  mean : V;
  std : V;
  median : V;
  first_quartile : V;
  third_quartile : V;
  iqr : V;
  outliers : V;
  data_no_outliers : V;
}.

(** The values an operand or a result of an operator can be: [None], a
    number, a string, or a [Stat]. An operator reads its right operand
    before it writes to the receiver, except for [other.unit] in [*]
    and [/], which is read before [self.unit] is written; a [Stat]
    operand is therefore carried by value, also when it is the receiver
    itself. *)
Inductive pyobj : Type :=
| PyNone
| PyNum (q : Q)
| PyStr (s : string)
| PyStat (s : t).

(** *** A method body: a computation on the receiver

    It ends in a value or an exception, and in both cases leaves the
    receiver as the assignments executed so far have made it. *)
Definition M (A : Type) : Type := t -> res A * t.

Definition ret {A} (a : A) : M A := fun self => (Ok a, self).
Definition raise {A} (e : exn) : M A := fun self => (Raise e, self).
Definition bind {A B} (m : M A) (f : A -> M B) : M B := fun self =>
  match m self with
  | (Ok a, self') => f a self'
  | (Raise e, self') => (Raise e, self')
  end.
(** a call that may raise and does not touch the receiver *)
Definition call {A} (r : res A) : M A := fun self => (r, self).
(** [self.field] *)
Definition read {A} (field : t -> A) : M A := fun self => (Ok (field self), self).
(** [self.field = v] *)
Definition assign (set : t -> t) : M () := fun self => (Ok (), set self).

Local Notation "x <- m ;; k" := (bind m (fun x => k))
  (at level 100, m at next level, right associativity).
Local Notation "m ;; k" := (bind m (fun _ => k))
  (at level 100, right associativity).

Definition set_data (v : list Q) (s : t) : t :=
  {| name := name s; data := v; unit := unit s; discrete := discrete s;
     mean := mean s; std := std s; median := median s;
     first_quartile := first_quartile s; third_quartile := third_quartile s;
     iqr := iqr s; outliers := outliers s;
     data_no_outliers := data_no_outliers s |}.
Definition set_unit (v : option string) (s : t) : t :=
  {| name := name s; data := data s; unit := v; discrete := discrete s;
     mean := mean s; std := std s; median := median s;
     first_quartile := first_quartile s; third_quartile := third_quartile s;
     iqr := iqr s; outliers := outliers s;
     data_no_outliers := data_no_outliers s |}.
Definition set_mean (v : V) (s : t) : t :=
  {| name := name s; data := data s; unit := unit s; discrete := discrete s;
     mean := v; std := std s; median := median s;
     first_quartile := first_quartile s; third_quartile := third_quartile s;
     iqr := iqr s; outliers := outliers s;
     data_no_outliers := data_no_outliers s |}.
Definition set_std (v : V) (s : t) : t :=
  {| name := name s; data := data s; unit := unit s; discrete := discrete s;
     mean := mean s; std := v; median := median s;
     first_quartile := first_quartile s; third_quartile := third_quartile s;
     iqr := iqr s; outliers := outliers s;
     data_no_outliers := data_no_outliers s |}.
Definition set_median (v : V) (s : t) : t :=
  {| name := name s; data := data s; unit := unit s; discrete := discrete s;
     mean := mean s; std := std s; median := v;
     first_quartile := first_quartile s; third_quartile := third_quartile s;
     iqr := iqr s; outliers := outliers s;
     data_no_outliers := data_no_outliers s |}.
Definition set_first_quartile (v : V) (s : t) : t :=
  {| name := name s; data := data s; unit := unit s; discrete := discrete s;
     mean := mean s; std := std s; median := median s;
     first_quartile := v; third_quartile := third_quartile s;
     iqr := iqr s; outliers := outliers s;
     data_no_outliers := data_no_outliers s |}.
Definition set_third_quartile (v : V) (s : t) : t :=
  {| name := name s; data := data s; unit := unit s; discrete := discrete s;
     mean := mean s; std := std s; median := median s;
     first_quartile := first_quartile s; third_quartile := v;
     iqr := iqr s; outliers := outliers s;
     data_no_outliers := data_no_outliers s |}.
Definition set_iqr (v : V) (s : t) : t :=
  {| name := name s; data := data s; unit := unit s; discrete := discrete s;
     mean := mean s; std := std s; median := median s;
     first_quartile := first_quartile s; third_quartile := third_quartile s;
     iqr := v; outliers := outliers s;
     data_no_outliers := data_no_outliers s |}.
Definition set_outliers (v : V) (s : t) : t :=
  {| name := name s; data := data s; unit := unit s; discrete := discrete s;
     mean := mean s; std := std s; median := median s;
     first_quartile := first_quartile s; third_quartile := third_quartile s;
     iqr := iqr s; outliers := v;
     data_no_outliers := data_no_outliers s |}.
Definition set_data_no_outliers (v : V) (s : t) : t :=
  {| name := name s; data := data s; unit := unit s; discrete := discrete s;
     mean := mean s; std := std s; median := median s;
     first_quartile := first_quartile s; third_quartile := third_quartile s;
     iqr := iqr s; outliers := outliers s;
     data_no_outliers := v |}.

(** [Stat(data_name, data_list, unit, discrete)] *)
Definition __init__ (data_name : string) (data_list : list Q)
    (unit : option string) (discrete : bool) : res t :=
  m ← functions.mean data_list;
  s ← functions.std data_list;
  md ← functions.median data_list;
  q1 ← functions.first_quartile data_list;
  q3 ← functions.third_quartile data_list;
  i ← functions.iqr data_list;
  o ← functions.outliers data_list;
  n ← functions.remove_outliers data_list;
  Ok {| name := data_name; data := data_list; unit := unit;
        discrete := discrete; mean := m; std := s; median := md;
        first_quartile := q1; third_quartile := q3; iqr := i;
        outliers := o; data_no_outliers := n |}.

(** [self.field = reduction(self.data)] *)
Definition recompute (reduction : list Q -> res V) (set : V -> t -> t) : M () :=
  d <- read data ;;
  v <- call (reduction d) ;;
  assign (set v).

(** The eight assignments that follow [self.data = ...] in each of the
    four operators. *)
Definition recompute_statistics : M () :=
  recompute functions.mean set_mean ;;
  recompute functions.std set_std ;;
  recompute functions.median set_median ;;
  recompute functions.first_quartile set_first_quartile ;;
  recompute functions.third_quartile set_third_quartile ;;
  recompute functions.iqr set_iqr ;;
  recompute functions.outliers set_outliers ;;
  recompute functions.remove_outliers set_data_no_outliers.

(** [x / y] on numbers *)
Definition truediv (xy : Q * Q) : res Q :=
  if Qeq_bool (snd xy) 0 then Raise ZeroDivisionError
  else Ok (fst xy / snd xy)%Q.

Definition __add__ (other : pyobj) : M pyobj :=
  match other with
  | PyStat other =>
      u <- read unit ;;
      if bool_decide (u <> unit other) then raise ValueError else
      d <- read data ;;
      assign (set_data (zip_with Qplus d (data other))) ;;
      recompute_statistics ;;
      ret PyNone
  | _ => raise TypeError
  end.

Definition __sub__ (other : pyobj) : M pyobj :=
  match other with
  | PyStat other =>
      u <- read unit ;;
      if bool_decide (u <> unit other) then raise ValueError else
      d <- read data ;;
      assign (set_data (zip_with Qminus d (data other))) ;;
      recompute_statistics ;;
      ret PyNone
  | _ => raise TypeError
  end.

Definition __mul__ (other : pyobj) : M pyobj :=
  match other with
  | PyStat other =>
      d <- read data ;;
      assign (set_data (zip_with Qmult d (data other))) ;;
      recompute_statistics ;;
      u <- read unit ;;
      u' <- call (functions.units_combining [u; unit other] "*") ;;
      assign (set_unit u') ;;
      ret PyNone
  | _ => raise TypeError
  end.

Definition __truediv__ (other : pyobj) : M pyobj :=
  match other with
  | PyStat other =>
      d <- read data ;;
      d' <- call (comprehension truediv (zip d (data other))) ;;
      assign (set_data d') ;;
      recompute_statistics ;;
      u <- read unit ;;
      u' <- call (functions.units_combining [u; unit other] "/") ;;
      assign (set_unit u') ;;
      ret PyNone
  | _ => raise TypeError
  end.

(** The four operators by their symbol. *)
Inductive operator : Set := Add | Sub | Mul | Div.

Definition method (o : operator) : pyobj -> M pyobj :=
  match o with
  | Add => __add__
  | Sub => __sub__
  | Mul => __mul__
  | Div => __truediv__
  end.

(** [lhs o rhs] for a right operand that is a [Stat]: Python calls the
    method of the left operand when it is a [Stat]; [None], numbers and
    strings do not accept a [Stat] on their right, and [Stat] defines no
    reflected method, which ends in [TypeError]. The result is paired
    with the left operand as the call leaves it. *)
Definition binop (o : operator) (lhs : pyobj) (rhs : t) : res pyobj * pyobj :=
  match lhs with
  | PyStat self =>
      let '(r, self') := method o (PyStat rhs) self in (r, PyStat self')
  | _ => (Raise TypeError, lhs)
  end.

(** [dt[k]] for a dict [dt] keyed by numbers, kept as the list of its
    items in insertion order; [None] when the key is absent. *)
Fixpoint dict_get (k : Q) (dt : list (Q * Z)) : option Z :=
  match dt with
  | [] => None
  | (k', c) :: dt' => if Qeq_bool k' k then Some c else dict_get k dt'
  end.

(** Lines 214-217: [if data not in dt: dt[data] = 1 else: dt[data] += 1].
    A new key goes to the end, a known key keeps its place. *)
Fixpoint dict_count (k : Q) (dt : list (Q * Z)) : list (Q * Z) :=
  match dt with
  | [] => [(k, 1%Z)]
  | (k', c) :: dt' =>
      if Qeq_bool k' k then (k', (c + 1)%Z) :: dt'
      else (k', c) :: dict_count k dt'
  end.

(** The dict [dt] that [freq] builds from [self.data] (lines 212-217);
    [freq(string=False)] returns it. *)
Definition freq_dict (self : t) : list (Q * Z) :=
  fold_left (fun dt data => dict_count data dt) (data self) [].

End WithReductions.
Arguments t V : clear implicits.
Arguments pyobj V : clear implicits.
End Stat.

(** ** raphutils/classes.py: Denombrement *)

Module Denombrement.
Section WithReductions.

Context {V : Type} {red : functions.Reductions V}.

(** [dilutions] is a dict; iteration follows insertion order, so it is
    kept as the list of its items. [None] is a plate that could not be
    counted. *)
Record t : Type := {
  name : string;
  dilutions : list (Z * option Z);
}.

Definition __init__ (name : string) (dilutions : list (Z * option Z)) : t :=
  {| name := name; dilutions := dilutions |}.

(** Lines 321-326: one iteration of the loop over the items. For a
    dilution that is not positive, the case the class is written for,
    [10**-dilution] is an int and the product is exact; for a positive
    dilution Python computes a double, which the exact power written
    here does not follow. *)
Definition collect (ufcs : list Q) (item : Z * option Z) : list Q :=
  let '(dilution, ufc) := item in
  match ufc with
  | None => ufcs
  | Some ufc =>
      if ((ufc <? 30) || (ufc >? 600))%Z then ufcs
      else ufcs ++ [(inject_Z ufc * 10 ^ (- dilution))%Q]
  end.

(** The list [ufcs] when the loop ends. *)
Definition ufcs (self : t) : list Q :=
  fold_left collect (dilutions self) [].

Definition get_ufc_per_ml (self : t) : res (V * V) :=
  let ufcs := ufcs self in
  m ← functions.mean ufcs;
  s ← functions.std ufcs;
  Ok (m, s).

End WithReductions.
End Denombrement.

(** ** The absent reductions, from their description *)

Module spec.

(** The reductions other than [mean]. *)
Inductive reduction : Set :=
| r_std
| r_median
| r_first_quartile
| r_third_quartile
| r_iqr
| r_outliers
| r_remove_outliers.

(** What a reduction hands back: an exact number, the undefined number
    (NaN), or the application of a reduction to its sample, left
    uninterpreted. *)
Inductive value : Type :=
| Exact (q : Q)
| Undefined
| Of (f : reduction) (sample : list Q).

(** [sum(l)] *)
Definition sum (l : list Q) : Q := fold_left Qplus l 0%Q.

(** Modelled from the spec: [mean], which [classes.py] imports from
    [raphutils.functions] and that module does not define. The
    specification calls it a pure numeric reduction over a non-empty
    sequence of numbers and leaves the empty sequence to its caller; of
    an estimate over zero qualifying entries it says that it is
    undefined (NaN) and that the computation, when nothing guards it,
    returns 0 or NaN. So: the arithmetic mean in lowest terms, and
    [Undefined] for the empty sample. *)
Definition mean_value (l : list Q) : value :=
  match l with
  | [] => Undefined
  | _ :: _ => Exact (Qred (sum l / inject_Z (Z.of_nat (length l))))
  end.

Definition mean (l : list Q) : res value := Ok (mean_value l).

(** Modelled from the spec: the seven other reductions absent from
    [raphutils.functions]. The specification gives their names and that
    they are pure; each result is the uninterpreted application of the
    reduction to the sample. *)
Definition other (f : reduction) (l : list Q) : res value := Ok (Of f l).

#[export] Instance reductions : functions.Reductions value := {|
  functions.mean := mean;
  functions.std := other r_std;
  functions.median := other r_median;
  functions.first_quartile := other r_first_quartile;
  functions.third_quartile := other r_third_quartile;
  functions.iqr := other r_iqr;
  functions.outliers := other r_outliers;
  functions.remove_outliers := other r_remove_outliers;
|}.

End spec.

(** ** Predicates used in the statements *)



(** An item of [dilutions] that [get_ufc_per_ml] skips: not countable, or
    a count outside 30..600. *)
Definition skipped (item : Z * option Z) : Prop :=
  match item.2 with
  | None => True
  | Some ufc => (ufc < 30 \/ 600 < ufc)%Z
  end.

(** Every cached statistic of a [Stat] is what its reduction returns on
    the current data. *)
Definition consistent {V : Type} {red : functions.Reductions V}
    (s : Stat.t V) : Prop :=
  functions.mean (Stat.data s) = Ok (Stat.mean s) /\
  functions.std (Stat.data s) = Ok (Stat.std s) /\
  functions.median (Stat.data s) = Ok (Stat.median s) /\
  functions.first_quartile (Stat.data s) = Ok (Stat.first_quartile s) /\
  functions.third_quartile (Stat.data s) = Ok (Stat.third_quartile s) /\
  functions.iqr (Stat.data s) = Ok (Stat.iqr s) /\
  functions.outliers (Stat.data s) = Ok (Stat.outliers s) /\
  functions.remove_outliers (Stat.data s) = Ok (Stat.data_no_outliers s).

(** None of the eight reductions raises on the sample [d]. *)
Definition reductions_return {V : Type} {red : functions.Reductions V}
    (d : list Q) : Prop :=
  raises (functions.mean d) = false /\
  raises (functions.std d) = false /\
  raises (functions.median d) = false /\
  raises (functions.first_quartile d) = false /\
  raises (functions.third_quartile d) = false /\
  raises (functions.iqr d) = false /\
  raises (functions.outliers d) = false /\
  raises (functions.remove_outliers d) = false.

(** How many entries of [l] are the number [k]. *)
Definition occurrences (k : Q) (l : list Q) : Z :=
  Z.of_nat (length (List.filter (fun x => Qeq_bool x k) l)).

(** The sum of the counts of a frequency dict. *)
Definition total_count (dt : list (Q * Z)) : Z :=
  foldr Z.add 0%Z (snd <$> dt).

(** No two keys of the dict are the same number. *)
Fixpoint keys_distinct (dt : list (Q * Z)) : Prop :=
  match dt with
  | [] => True
  | (k, _) :: dt' => Forall (fun e => ~ (e.1 == k)%Q) dt' /\ keys_distinct dt'
  end.

(** What an item of [dilutions] adds to the sample of [get_ufc_per_ml]:
    its count scaled by the dilution when the count is from 30 to 600,
    nothing otherwise. *)
Definition contribution (item : Z * option Z) : option Q :=
  match item.2 with
  | Some ufc =>
      if ((30 <=? ufc) && (ufc <=? 600))%Z
      then Some (inject_Z ufc * 10 ^ (- item.1))%Q
      else None
  | None => None
  end.

(** The chi-square statistic of observed counts against expected
    counts: the sum, over the observed counts, of the squared deviation
    from the expected count divided by that expected count. *)
Fixpoint chi2_statistic (obs theo : list Q) : Q :=
  match obs, theo with
  | o :: obs', t :: theo' =>
      ((o - t) * (o - t) / t + chi2_statistic obs' theo')%Q
  | _, _ => 0%Q
  end.

(** The sums of the columns of a table whose rows are as long as the
    first one. *)
Definition column_sums (obs : list (list Q)) : list Q :=
  (fun j => functions.pysum ((fun r => default 0%Q (r !! j)) <$> obs))
    <$> seq 0 (length (default [] (head obs))).


(** [math.log] on the three numbers that the examples of the
    specification take the logarithm of, as a platform whose C library
    rounds the logarithm to the nearest double returns them:
    0.6931471805599453 for 2, 4.605170185988092 for 100 and
    5.298317366548036 for 200. The examples ask for no other logarithm;
    elsewhere the table answers NaN, which [math.log] turns into
    [ValueError]. *)
Definition libm_on_examples : Libm :=
  {| c_log := fun x =>
       (if x =? 2 then 0x1.62e42fefa39efp-1
        else if x =? 100 then 0x1.26bb1bbb55516p+2
        else if x =? 200 then 0x1.5317a1b949c53p+2
        else nan)%float |}.

(** The dilutions of the docstring of [Denombrement], without the plate
    that could not be counted. *)
Definition plates : Denombrement.t :=
  Denombrement.__init__ "E. coli" [(-5, Some 354); (-6, Some 35); (-7, Some 3)]%Z.

(** No plate in the countable range. *)
Definition no_plate : Denombrement.t :=
  Denombrement.__init__ "E. coli" [(-4, None); (-3, Some 700); (-7, Some 3)]%Z.

(** The object that [Stat(name, data, unit)] builds with the reductions
    of [spec], which never raise. *)
Definition series (name : string) (data : list Q) (unit : option string)
  : Stat.t spec.value :=
  {| Stat.name := name; Stat.data := data; Stat.unit := unit;
     Stat.discrete := false;
     Stat.mean := spec.mean_value data;
     Stat.std := spec.Of spec.r_std data;
     Stat.median := spec.Of spec.r_median data;
     Stat.first_quartile := spec.Of spec.r_first_quartile data;
     Stat.third_quartile := spec.Of spec.r_third_quartile data;
     Stat.iqr := spec.Of spec.r_iqr data;
     Stat.outliers := spec.Of spec.r_outliers data;
     Stat.data_no_outliers := spec.Of spec.r_remove_outliers data |}.

(** * Properties *)

(** ** Unit algebra on the documented units *)

Example units_mul_cancels :
  functions.units_combining [Some "a/b"; Some "b/c"] "*" = Ok (Some "a/c").
Proof. reflexivity. Qed.

Example units_div_inverts :
  functions.units_combining [Some "g"; Some "m/s"] "/" = Ok (Some "g.s/m").
Proof. reflexivity. Qed.

Example units_round_trip_tokens :
  functions.units_combining [Some "g"; Some "mL"] "*" = Ok (Some "g.mL") /\
  functions.units_combining [Some "g.mL"; Some "mL"] "/" = Ok (Some "g").
Proof. split; reflexivity. Qed.

Example units_round_trip_fractions :
  functions.units_combining [Some "a/b"; Some "c/d"] "*" = Ok (Some "a.c/b.d") /\
  functions.units_combining [Some "a.c/b.d"; Some "c/d"] "/" = Ok (Some "a/b").
Proof. split; reflexivity. Qed.

Example units_too_many :
  functions.units_combining [Some "g"; Some "mL"; Some "s"] "*" = Raise ValueError.
Proof. reflexivity. Qed.

(** C9: the product of the units "g" and "mL" is "g.mL", their quotient
    is "g/mL", and for the operators + and - [units_combining] returns
    the first unit unchanged, whatever the two units are. *)
Theorem C9_units_of_products_and_sums :
  functions.units_combining [Some "g"; Some "mL"] "*" = Ok (Some "g.mL") /\
  functions.units_combining [Some "g"; Some "mL"] "/" = Ok (Some "g/mL") /\
  (forall a b : option string,
      functions.units_combining [a; b] "+" = Ok a /\
      functions.units_combining [a; b] "-" = Ok a).
Proof.
  split; [reflexivity|]. split; [reflexivity|].
  intros a b. split; reflexivity.
Qed.

(** C2: the round trip of a product followed by a quotient stops at its
    first step when exactly one of the two units is a fraction: the
    product of "g/mL" and "s", and of "g" and "m/s", ends in an
    [IndexError] raised by the cancellation loop, which reads
    [units[1][1]] from a one-token denominator. *)
Theorem C2_product_of_mixed_shapes_raises :
  functions.units_combining [Some "g/mL"; Some "s"] "*" = Raise IndexError /\
  functions.units_combining [Some "g"; Some "m/s"] "*" = Raise IndexError /\
  functions.build_message [["g"; "mL"]; ["s"]] "*" = Ok "g.s/mL" /\
  functions.cancel_mul (0%nat, "g") [["g"; "s"]; ["mL"]] = Raise IndexError.
Proof. repeat split; reflexivity. Qed.

(** ** Denombrement *)

Lemma fold_collect_skipped (l : list (Z * option Z)) (acc : list Q) :
  Forall skipped l -> fold_left Denombrement.collect l acc = acc.
Proof.
  intros Hl. revert acc.
  induction Hl as [|[dilution [ufc|]] l Hskip _ IH]; intros acc; simpl; auto.
  unfold skipped in Hskip; simpl in Hskip.
  replace ((ufc <? 30)%Z || (ufc >? 600)%Z) with true; [apply IH|].
  symmetry. apply orb_true_iff.
  destruct Hskip; [left; apply Z.ltb_lt|right; apply Z.gtb_lt]; lia.
Qed.

Lemma no_plate_skipped : Forall skipped (Denombrement.dilutions no_plate).
Proof. repeat constructor; unfold skipped; simpl; lia. Qed.

(** C1, as stated, fails: on the dilutions {-5: 354, -6: 35, -7: 3} the
    sample of [get_ufc_per_ml] is not the single value of the plate at
    -5, and the mean it returns is not 354 * 10^5. *)
Lemma C1_counterexample :
  ~ (exists x : Q, Denombrement.ufcs plates = [x]) /\
  ~ (exists (m : Q) (s : spec.value),
        Denombrement.get_ufc_per_ml (red := spec.reductions) plates
          = Ok (spec.Exact m, s) /\
        (m == 354 * 10 ^ 5)%Q).
Proof.
  split.
  - intros [x Hx]. vm_compute in Hx. discriminate Hx.
  - intros (m & s & Hr & Hm). vm_compute in Hr.
    injection Hr as Hm' _. subst m. vm_compute in Hm. discriminate Hm.
Qed.

(** C1, amended: on the dilutions {-5: 354, -6: 35, -7: 3} the counts 354
    (at -5) and 35 (at -6) both lie in 30..600 and 3 does not; the sample
    is [354 * 10^5, 35 * 10^6]; [get_ufc_per_ml] returns what [mean] and
    [std] give on that sample, and its arithmetic mean is 352 * 10^5. *)
Theorem C1_two_plates_are_counted :
  Denombrement.ufcs plates
    = [(inject_Z 354 * 10 ^ 5)%Q; (inject_Z 35 * 10 ^ 6)%Q] /\
  (forall (V : Type) (red : functions.Reductions V),
      Denombrement.get_ufc_per_ml plates =
        (m ← functions.mean [(inject_Z 354 * 10 ^ 5)%Q; (inject_Z 35 * 10 ^ 6)%Q];
         s ← functions.std [(inject_Z 354 * 10 ^ 5)%Q; (inject_Z 35 * 10 ^ 6)%Q];
         Ok (m, s))) /\
  Denombrement.get_ufc_per_ml (red := spec.reductions) plates
    = Ok (spec.Exact (352 * 10 ^ 5)%Q,
          spec.Of spec.r_std [(inject_Z 354 * 10 ^ 5)%Q; (inject_Z 35 * 10 ^ 6)%Q]) /\
  (352 * 10 ^ 5 == (354 * 10 ^ 5 + 35 * 10 ^ 6) / 2)%Q.
Proof.
  split; [reflexivity|]. split; [intros V red; reflexivity|].
  split; reflexivity.
Qed.

(** C4, as stated, fails against the reductions as the specification
    describes them: with every plate not countable or outside 30..600,
    [get_ufc_per_ml] raises nothing of its own. Whenever [mean] and
    [std] return on the empty list, whatever they return, it returns
    their two results; an exception it raises is one that [mean] or
    [std] raised on the empty list; with the mean of the specification
    it returns the undefined value. *)
Lemma C4_counterexample :
  Forall skipped (Denombrement.dilutions no_plate) /\
  (forall (V : Type) (red : functions.Reductions V) (m s : V),
      functions.mean [] = Ok m -> functions.std [] = Ok s ->
      Denombrement.get_ufc_per_ml no_plate = Ok (m, s)) /\
  (forall (V : Type) (red : functions.Reductions V) (e : exn),
      Denombrement.get_ufc_per_ml no_plate = Raise e ->
      functions.mean [] = Raise e \/ functions.std [] = Raise e) /\
  Denombrement.get_ufc_per_ml (red := spec.reductions) no_plate
    = Ok (spec.Undefined, spec.Of spec.r_std []) /\
  raises (Denombrement.get_ufc_per_ml (red := spec.reductions) no_plate) = false.
Proof.
  split; [apply no_plate_skipped|].
  split; [|split; [|split; reflexivity]].
  - intros V red m s Hm Hs.
    change (Denombrement.get_ufc_per_ml no_plate)
      with (m' ← functions.mean []; s' ← functions.std []; Ok (m', s')).
    now rewrite Hm, Hs.
  - intros V red e.
    change (Denombrement.get_ufc_per_ml no_plate)
      with (m' ← functions.mean []; s' ← functions.std []; Ok (m', s')).
    destruct (functions.mean []) as [m|e1]; simpl; [|intros [= ->]; now left].
    destruct (functions.std []) as [s0|e2]; simpl; [discriminate|].
    intros [= ->]. now right.
Qed.

(** C4, amended: when every entry of the dilution mapping is not
    countable or has a count outside 30..600, [get_ufc_per_ml] has no
    guard of its own: the sample is empty and the result is what [mean]
    and [std] give on the empty list, an exception only if one of them
    raises it. *)
Theorem C4_empty_sample_is_handed_to_the_reductions
    (V : Type) (red : functions.Reductions V) (self : Denombrement.t) :
  Forall skipped (Denombrement.dilutions self) ->
  Denombrement.ufcs self = [] /\
  Denombrement.get_ufc_per_ml self =
    (m ← functions.mean []; s ← functions.std []; Ok (m, s)).
Proof.
  intros Hskip.
  assert (Hu : Denombrement.ufcs self = []).
  { unfold Denombrement.ufcs. now apply fold_collect_skipped. }
  split; [exact Hu|].
  unfold Denombrement.get_ufc_per_ml. now rewrite Hu.
Qed.

Lemma C4_witness :
  Forall skipped (Denombrement.dilutions no_plate) /\
  Denombrement.ufcs no_plate = [] /\
  Denombrement.get_ufc_per_ml (red := spec.reductions) no_plate =
    (m ← spec.mean []; s ← spec.other spec.r_std []; Ok (m, s)).
Proof.
  split; [apply no_plate_skipped|].
  apply (C4_empty_sample_is_handed_to_the_reductions
           spec.value spec.reductions no_plate).
  apply no_plate_skipped.
Defined.

(** ** Stat *)

Section StatFacts.

Context {V : Type} {red : functions.Reductions V}.

(** One recomputed statistic leaves [data] and [unit] alone, whether
    the reduction returns or raises. *)
Lemma recompute_frame (f : list Q -> res V) (set : V -> Stat.t V -> Stat.t V)
    (self : Stat.t V) :
  (forall v s, Stat.data (set v s) = Stat.data s /\
               Stat.unit (set v s) = Stat.unit s) ->
  Stat.data (Stat.recompute f set self).2 = Stat.data self /\
  Stat.unit (Stat.recompute f set self).2 = Stat.unit self.
Proof.
  intros Hset. unfold Stat.recompute, Stat.bind, Stat.read, Stat.call,
    Stat.assign. simpl.
  destruct (f (Stat.data self)); simpl; auto.
Qed.

Lemma bind_frame {A B} (m : Stat.M (V:=V) A) (k : A -> Stat.M (V:=V) B)
    (P : Stat.t V -> Prop) (self : Stat.t V) :
  P (m self).2 -> (forall a s, P s -> P (k a s).2) -> P (Stat.bind m k self).2.
Proof.
  intros Hm Hk. unfold Stat.bind.
  destruct (m self) as [[a|e] s]; simpl in *; auto.
Qed.

Lemma recompute_statistics_frame (self : Stat.t V) :
  Stat.data (Stat.recompute_statistics self).2 = Stat.data self /\
  Stat.unit (Stat.recompute_statistics self).2 = Stat.unit self.
Proof.
  unfold Stat.recompute_statistics.
  pose (P := fun s : Stat.t V =>
               Stat.data s = Stat.data self /\ Stat.unit s = Stat.unit self).
  assert (Hstep : forall f set (s : Stat.t V),
             (forall v s, Stat.data (set v s) = Stat.data s /\
                          Stat.unit (set v s) = Stat.unit s) ->
             P s -> P (Stat.recompute f set s).2).
  { intros f set s Hset [Hd Hu].
    destruct (recompute_frame f set s Hset) as [Hd' Hu'].
    split; congruence. }
  change (P (Stat.bind (Stat.recompute functions.mean Stat.set_mean)
    (fun _ => Stat.bind (Stat.recompute functions.std Stat.set_std)
    (fun _ => Stat.bind (Stat.recompute functions.median Stat.set_median)
    (fun _ => Stat.bind
       (Stat.recompute functions.first_quartile Stat.set_first_quartile)
    (fun _ => Stat.bind
       (Stat.recompute functions.third_quartile Stat.set_third_quartile)
    (fun _ => Stat.bind (Stat.recompute functions.iqr Stat.set_iqr)
    (fun _ => Stat.bind (Stat.recompute functions.outliers Stat.set_outliers)
    (fun _ => Stat.recompute functions.remove_outliers
                Stat.set_data_no_outliers))))))) self).2).
  repeat (apply bind_frame; [|intros _ ? ?]);
    try (apply Hstep; [intros; split; reflexivity|]); try assumption;
    split; reflexivity.
Qed.

End StatFacts.

Section StatOperators.

Context {V : Type} {red : functions.Reductions V}.

Lemma add_same_unit (self o : Stat.t V) :
  Stat.unit self = Stat.unit o ->
  Stat.__add__ (Stat.PyStat o) self =
    Stat.bind Stat.recompute_statistics (fun _ => Stat.ret Stat.PyNone)
      (Stat.set_data (zip_with Qplus (Stat.data self) (Stat.data o)) self).
Proof.
  intros Hu. unfold Stat.__add__.
  unfold Stat.bind at 1, Stat.read at 1. simpl.
  rewrite bool_decide_false by (intros H; now apply H).
  reflexivity.
Qed.

(** C7: [__add__] with an operand that is not a [Stat] raises
    [TypeError]; with a [Stat] of another unit it raises [ValueError]
    (the two leave the receiver as it was); with a [Stat] of the same
    unit and the same length it replaces the data of the receiver by
    the element-wise sum, keeps its unit, and returns unless a
    reduction raises. *)
Theorem C7_add_checks_then_sums (self : Stat.t V) :
  (forall other : Stat.pyobj V,
      (forall s, other <> Stat.PyStat s) ->
      Stat.__add__ other self = (Raise TypeError, self)) /\
  (forall o : Stat.t V,
      Stat.unit self <> Stat.unit o ->
      Stat.__add__ (Stat.PyStat o) self = (Raise ValueError, self)) /\
  (forall o : Stat.t V,
      Stat.unit self = Stat.unit o ->
      length (Stat.data self) = length (Stat.data o) ->
      let r := Stat.__add__ (Stat.PyStat o) self in
      Stat.data r.2 = zip_with Qplus (Stat.data self) (Stat.data o) /\
      length (Stat.data r.2) = length (Stat.data self) /\
      Stat.unit r.2 = Stat.unit self /\
      (raises r.1 = false -> r.1 = Ok Stat.PyNone)).
Proof.
  split; [|split].
  - intros other Hother.
    destruct other as [| | |s]; try reflexivity. now destruct (Hother s).
  - intros o Hu. unfold Stat.__add__, Stat.bind, Stat.read. simpl.
    now rewrite bool_decide_true.
  - intros o Hu Hlen r. subst r.
    rewrite (add_same_unit self o Hu).
    set (s1 := Stat.set_data _ self).
    pose proof (recompute_statistics_frame s1) as [Hd Hframe].
    unfold Stat.bind.
    destruct (Stat.recompute_statistics s1) as [[[]|e] s2]; simpl in *;
      rewrite Hd, Hframe;
      (split; [reflexivity|]);
      (split; [rewrite length_zip_with; lia|]);
      (split; [reflexivity|]); intros H; try discriminate H; reflexivity.
Qed.

(** An operator that returns has returned [None]: its right operand
    was a [Stat], the receiver now holds the element-wise result, and
    the value of the expression, used as the left operand of a further
    operator, makes that operator raise [TypeError]. *)
Lemma returned_value_is_None (o o' : Stat.operator)
    (self self' c : Stat.t V) (other v : Stat.pyobj V) :
  Stat.method o other self = (Ok v, self') ->
  v = Stat.PyNone /\
  (exists s : Stat.t V,
      other = Stat.PyStat s /\
      Stat.binop o (Stat.PyStat self) s = (Ok Stat.PyNone, Stat.PyStat self') /\
      match o with
      | Stat.Add => Stat.data self' = zip_with Qplus (Stat.data self) (Stat.data s)
      | Stat.Sub => Stat.data self' = zip_with Qminus (Stat.data self) (Stat.data s)
      | Stat.Mul => Stat.data self' = zip_with Qmult (Stat.data self) (Stat.data s)
      | Stat.Div =>
          comprehension Stat.truediv (zip (Stat.data self) (Stat.data s))
            = Ok (Stat.data self')
      end) /\
  Stat.binop o' v c = (Raise TypeError, Stat.PyNone).
Proof.
  intros Hrun.
  assert (Hv : v = Stat.PyNone /\
    exists s : Stat.t V, other = Stat.PyStat s /\
      match o with
      | Stat.Add => Stat.data self' = zip_with Qplus (Stat.data self) (Stat.data s)
      | Stat.Sub => Stat.data self' = zip_with Qminus (Stat.data self) (Stat.data s)
      | Stat.Mul => Stat.data self' = zip_with Qmult (Stat.data self) (Stat.data s)
      | Stat.Div =>
          comprehension Stat.truediv (zip (Stat.data self) (Stat.data s))
            = Ok (Stat.data self')
      end).
  { destruct other as [| | |s]; try (destruct o; discriminate Hrun).
    destruct o; simpl in Hrun.
    - unfold Stat.__add__ in Hrun.
      unfold Stat.bind at 1, Stat.read at 1 in Hrun. simpl in Hrun.
      destruct (bool_decide _); [discriminate Hrun|].
      unfold Stat.bind at 1, Stat.read at 1 in Hrun. simpl in Hrun.
      unfold Stat.bind at 1, Stat.assign at 1 in Hrun. simpl in Hrun.
      set (s1 := Stat.set_data _ self) in Hrun.
      pose proof (recompute_statistics_frame s1) as [Hd _].
      unfold Stat.bind in Hrun.
      destruct (Stat.recompute_statistics s1) as [[[]|e] s2];
        [|discriminate Hrun].
      injection Hrun as <- <-. split; [reflexivity|].
      exists s. split; [reflexivity|]. exact Hd.
    - unfold Stat.__sub__ in Hrun.
      unfold Stat.bind at 1, Stat.read at 1 in Hrun. simpl in Hrun.
      destruct (bool_decide _); [discriminate Hrun|].
      unfold Stat.bind at 1, Stat.read at 1 in Hrun. simpl in Hrun.
      unfold Stat.bind at 1, Stat.assign at 1 in Hrun. simpl in Hrun.
      set (s1 := Stat.set_data _ self) in Hrun.
      pose proof (recompute_statistics_frame s1) as [Hd _].
      unfold Stat.bind in Hrun.
      destruct (Stat.recompute_statistics s1) as [[[]|e] s2];
        [|discriminate Hrun].
      injection Hrun as <- <-. split; [reflexivity|].
      exists s. split; [reflexivity|]. exact Hd.
    - unfold Stat.__mul__ in Hrun.
      unfold Stat.bind at 1, Stat.read at 1 in Hrun. simpl in Hrun.
      unfold Stat.bind at 1, Stat.assign at 1 in Hrun. simpl in Hrun.
      set (s1 := Stat.set_data _ self) in Hrun.
      pose proof (recompute_statistics_frame s1) as [Hd _].
      unfold Stat.bind, Stat.read, Stat.call, Stat.assign, Stat.ret in Hrun.
      destruct (Stat.recompute_statistics s1) as [[[]|e] s2];
        [|discriminate Hrun].
      simpl in Hrun.
      destruct (functions.units_combining _ _); [|discriminate Hrun].
      injection Hrun as <- <-. split; [reflexivity|].
      exists s. split; [reflexivity|]. exact Hd.
    - unfold Stat.__truediv__ in Hrun.
      unfold Stat.bind at 1, Stat.read at 1 in Hrun. simpl in Hrun.
      unfold Stat.bind at 1, Stat.call at 1 in Hrun.
      destruct (comprehension Stat.truediv _) as [d'|e] eqn:Hdiv;
        [|discriminate Hrun].
      unfold Stat.bind at 1, Stat.assign at 1 in Hrun. simpl in Hrun.
      set (s1 := Stat.set_data _ self) in Hrun.
      pose proof (recompute_statistics_frame s1) as [Hd _].
      unfold Stat.bind, Stat.read, Stat.call, Stat.assign, Stat.ret in Hrun.
      destruct (Stat.recompute_statistics s1) as [[[]|e] s2];
        [|discriminate Hrun].
      simpl in Hrun.
      destruct (functions.units_combining _ _); [|discriminate Hrun].
      injection Hrun as <- <-. split; [reflexivity|].
      exists s. split; [reflexivity|]. simpl in *. rewrite Hd. exact Hdiv. }
  destruct Hv as (-> & s & -> & Hdata).
  split; [reflexivity|]. split; [|reflexivity].
  exists s. split; [reflexivity|]. split; [|exact Hdata].
  unfold Stat.binop. now rewrite Hrun.
Qed.

End StatOperators.

(** ** Stat on concrete series *)

Lemma series_is_constructed (name : string) (data : list Q) (unit : option string) :
  Stat.__init__ (red := spec.reductions) name data unit false
    = Ok (series name data unit).
Proof. reflexivity. Qed.

Lemma C7_witness :
  let a := series "a" [1; 2]%Q (Some "g") in
  Stat.__add__ (red := spec.reductions) Stat.PyNone a = (Raise TypeError, a) /\
  Stat.__add__ (red := spec.reductions)
      (Stat.PyStat (series "b" [3; 4]%Q (Some "mL"))) a
    = (Raise ValueError, a) /\
  Stat.data (Stat.__add__ (red := spec.reductions)
               (Stat.PyStat (series "b" [3; 4]%Q (Some "g"))) a).2
    = [4; 6]%Q /\
  (Stat.__add__ (red := spec.reductions)
     (Stat.PyStat (series "b" [3; 4]%Q (Some "g"))) a).1 = Ok Stat.PyNone.
Proof.
  intros a.
  destruct (C7_add_checks_then_sums (red := spec.reductions) a)
    as (Htype & Hunit & Hsum).
  split; [apply Htype; intros s; discriminate|].
  split; [apply Hunit; discriminate|].
  destruct (Hsum (series "b" [3; 4]%Q (Some "g")) eq_refl eq_refl)
    as (Hdata & _ & _ & Hret).
  split; [exact Hdata|]. apply Hret. vm_compute. reflexivity.
Defined.

(** C3: [__mul__] and [__truediv__] compute the unit after they have
    assigned the data and the statistics, so an exception of
    [units_combining] leaves the receiver half updated. With no unit (the
    default) every product raises after the data has been replaced; the
    product of series in "g/mL" and in "s" raises [IndexError] with the
    data and the mean replaced and the unit not; the quotient of series
    without unit raises [AttributeError] in the same state. *)
Theorem C3_mul_and_div_raise_after_assigning :
  (forall (V : Type) (red : functions.Reductions V) (a b : Stat.t V),
      let r := Stat.__mul__ (Stat.PyStat b) (Stat.set_unit None a) in
      raises r.1 = true /\
      Stat.data r.2 = zip_with Qmult (Stat.data a) (Stat.data b)) /\
  (let a := series "a" [1; 2]%Q (Some "g/mL") in
   let b := series "b" [3; 4]%Q (Some "s") in
   let r := Stat.__mul__ (red := spec.reductions) (Stat.PyStat b) a in
   r.1 = Raise IndexError /\
   Stat.data a = [1; 2]%Q /\ Stat.data r.2 = [3; 8]%Q /\
   Stat.mean a = spec.Exact (3 # 2) /\ Stat.mean r.2 = spec.Exact (11 # 2) /\
   Stat.unit r.2 = Some "g/mL") /\
  (let a := series "a" [1; 2]%Q None in
   let b := series "b" [4; 8]%Q None in
   let r := Stat.__truediv__ (red := spec.reductions) (Stat.PyStat b) a in
   r.1 = Raise AttributeError /\
   Stat.data a = [1; 2]%Q /\ Stat.data r.2 = [(1 # 4); (2 # 8)]%Q /\
   Stat.mean a = spec.Exact (3 # 2) /\ Stat.mean r.2 = spec.Exact (1 # 4) /\
   Stat.unit r.2 = None).
Proof.
  split; [|split; repeat split; vm_compute; reflexivity].
  intros V red a b. cbv zeta.
  pose proof (recompute_statistics_frame
    (Stat.set_data (zip_with Qmult (Stat.data a) (Stat.data b))
       (Stat.set_unit None a))) as [Hd Hu].
  unfold Stat.__mul__, Stat.bind, Stat.read, Stat.call, Stat.assign, Stat.ret.
  simpl in *.
  destruct (Stat.recompute_statistics _) as [[[]|e] s2]; simpl in *.
  - rewrite Hu. simpl. split; [reflexivity|exact Hd].
  - split; [reflexivity|exact Hd].
Qed.

(** ** Comprehensions *)

Lemma comprehension_lookup {A B} (f : A -> res B) (l : list A) (ys : list B) :
  comprehension f l = Ok ys ->
  length ys = length l /\
  forall (i : nat) (x : A), l !! i = Some x ->
    exists y, ys !! i = Some y /\ f x = Ok y.
Proof.
  revert ys. induction l as [|x l IH]; intros ys Hc; simpl in Hc.
  - injection Hc as <-. split; [reflexivity|]. intros i x Hx. discriminate Hx.
  - destruct (f x) as [y|e] eqn:Hfx; simpl in Hc; [|discriminate Hc].
    destruct (comprehension f l) as [ys'|e] eqn:Hl; simpl in Hc;
      [|discriminate Hc].
    injection Hc as <-. destruct (IH ys' eq_refl) as [Hlen Hlook].
    split; [simpl; now rewrite Hlen|].
    intros [|i] x' Hx'; simpl in *.
    + injection Hx' as <-. now exists y.
    + now apply Hlook.
Qed.

Lemma comprehension_returns {A B} (f : A -> res B) (l : list A) :
  Forall (fun x => exists y, f x = Ok y) l ->
  exists ys, comprehension f l = Ok ys.
Proof.
  induction 1 as [|x l [y Hy] _ [ys Hys]]; simpl.
  - now exists [].
  - rewrite Hy. simpl. rewrite Hys. simpl. now exists (y :: ys).
Qed.

(** ** GrowthMonitoring *)

Section GrowthFacts.

Local Open Scope R_scope.

Lemma log_positive (x : R) : 0 < x -> GrowthMonitoring.log x = Ok (ln x).
Proof.
  intros Hx. unfold GrowthMonitoring.log.
  destruct (Rlt_dec 0 x); [reflexivity|contradiction].
Qed.

(** The clamped quotient, on a time step that is not zero. *)
Lemma clamp_np_div (x dt : R) :
  dt <> 0 ->
  (if GrowthMonitoring.lt0 (GrowthMonitoring.np_div x dt)
   then Fin 0 else GrowthMonitoring.np_div x dt) = Fin (Rmax 0 (x / dt)).
Proof.
  intros Hdt. unfold GrowthMonitoring.np_div.
  destruct (Req_dec_T dt 0) as [|_]; [contradiction|]. simpl.
  destruct (Rlt_dec (x / dt) 0) as [Hneg|Hpos]; f_equal.
  - rewrite Rmax_left; lra.
  - rewrite Rmax_right; lra.
Qed.

Lemma growth_rate_value (data time : list R) (i : nat) (a b t0 t1 : R) :
  data !! i = Some b -> data !! (i + 1)%nat = Some a ->
  time !! i = Some t0 -> time !! (i + 1)%nat = Some t1 ->
  0 < a -> 0 < b -> t0 < t1 ->
  GrowthMonitoring.growth_rate data time i
    = Ok (Fin (Rmax 0 ((ln a - ln b) / (t1 - t0)))).
Proof.
  intros Hb Ha Ht0 Ht1 Hpa Hpb Hlt.
  unfold GrowthMonitoring.growth_rate, getitem.
  rewrite Ha, Hb, Ht1, Ht0. simpl.
  rewrite (log_positive a Hpa). simpl.
  rewrite (log_positive b Hpb). simpl.
  rewrite clamp_np_div by lra. reflexivity.
Qed.

Lemma doubling_time_value (x : R) :
  (x <> 0 -> GrowthMonitoring.doubling_time (Fin x) = Fin (ln 2 / x)) /\
  (x = 0 -> GrowthMonitoring.doubling_time (Fin x) = Fin 0).
Proof.
  unfold GrowthMonitoring.doubling_time, GrowthMonitoring.ne0.
  destruct (Req_dec_T x 0); split; intros H; try contradiction; reflexivity.
Qed.

Lemma ln2_positive : 0 < ln 2.
Proof. rewrite <- ln_1. apply ln_increasing; lra. Qed.

(** The two-point series that doubles in ten units of time. *)
Lemma doubling_series_constructed (name : string) :
  GrowthMonitoring.__init__ name [100; 200] [0; 10]
    = Ok {| GrowthMonitoring.name := name;
            GrowthMonitoring.data := [100; 200];
            GrowthMonitoring.time := [0; 10];
            GrowthMonitoring.µ := [Fin 0; Fin (ln 2 / 10)];
            GrowthMonitoring.td := [Fin 0; Fin 10] |}.
Proof.
  pose proof ln2_positive as Hln2.
  unfold GrowthMonitoring.__init__. simpl.
  rewrite (growth_rate_value [100; 200] [0; 10] 0 200 100 0 10)
    by (try reflexivity; lra).
  simpl.
  assert (Hrate : Rmax 0 ((ln 200 - ln 100) / (10 - 0)) = ln 2 / 10).
  { replace 200 with (2 * 100) by lra.
    rewrite ln_mult by lra.
    replace ((ln 2 + ln 100 - ln 100) / (10 - 0)) with (ln 2 / 10) by lra.
    apply Rmax_right. lra. }
  rewrite Hrate.
  destruct (doubling_time_value 0) as [_ ->]; [|reflexivity].
  destruct (doubling_time_value (ln 2 / 10)) as [-> _]; [|lra].
  replace (ln 2 / (ln 2 / 10)) with 10 by (field; lra). reflexivity.
Qed.


End GrowthFacts.

Section GrowthTheorems.

Local Open Scope R_scope.




End GrowthTheorems.

(** ** GrowthMonitoring on doubles *)

Section GrowthOnDoubles.

Local Open Scope float_scope.

(** A double that is a number, not an infinity, minus itself is +0. *)
Lemma sub_diag (x : float) :
  is_nan x = false -> is_infinity x = false -> x - x = 0.
Proof.
  intros Hnan Hinf. apply Prim2SF_inj. rewrite FloatAxioms.sub_spec.
  unfold is_nan in Hnan. unfold is_infinity in Hinf.
  rewrite FloatAxioms.eqb_spec in Hnan.
  rewrite FloatAxioms.eqb_spec, FloatAxioms.abs_spec in Hinf.
  destruct (Prim2SF x) as [s|s| |s m e].
  - destruct s; reflexivity.
  - destruct s; discriminate Hinf.
  - discriminate Hnan.
  - unfold SF64sub, SFsub. rewrite Z.sub_diag. reflexivity.
Qed.

(** A quotient by NaN is NaN, and NaN does not compare equal to zero. *)
Lemma div_by_nan (x m : float) :
  is_nan m = true -> (m =? 0) = false /\ is_nan (x / m) = true.
Proof.
  unfold is_nan.
  rewrite !FloatAxioms.eqb_spec, FloatAxioms.div_spec.
  destruct (Prim2SF m) as [s|s| |s mm e].
  - discriminate.
  - destruct s; discriminate.
  - intros _. split; [reflexivity|].
    destruct (Prim2SF x) as [s|s| |s mx e]; reflexivity.
  - unfold SFeqb, SFcompare.
    rewrite Z.compare_refl, Pos.compare_cont_refl.
    destruct s; discriminate.
Qed.

(** The quotient of a number by an infinity compares equal to zero, and
    an infinity does not. *)
Lemma div_by_infinity (x m : float) :
  is_nan x = false -> is_infinity x = false -> is_infinity m = true ->
  (m =? 0) = false /\ (x / m =? 0) = true.
Proof.
  unfold is_nan, is_infinity.
  rewrite !FloatAxioms.eqb_spec, !FloatAxioms.abs_spec, FloatAxioms.div_spec.
  change (Prim2SF 0) with (S754_zero false).
  change (Prim2SF infinity) with (S754_infinity false).
  destruct (Prim2SF m) as [s|s| |s mm e]; try discriminate.
  intros Hnan Hinf _. split; [now destruct s|].
  destruct (Prim2SF x) as [sx|sx| |sx mx ex]; try discriminate;
    reflexivity.
Qed.

(** A logarithm that [math.log] returns for a quantity that is a
    positive number is what the C library gave, and is a number. *)
Lemma log_of_a_number {libm : Libm} (x l : float) :
  (x <=? 0) = false -> is_nan x || is_infinity x = false ->
  GrowthMonitoring64.log x = Ok l ->
  l = c_log x /\ is_nan l = false /\ is_infinity l = false.
Proof.
  intros Hpos Hnum Hlog. unfold GrowthMonitoring64.log in Hlog.
  rewrite Hpos, Hnum in Hlog.
  destruct (is_nan (c_log x) || is_infinity (c_log x)) eqn:Hr;
    [discriminate Hlog|].
  injection Hlog as <-. apply orb_false_iff in Hr. now split.
Qed.

(** [math.log] hands back the value of the C library when that is a
    number. *)
Lemma log_of_the_library {libm : Libm} (x : float) :
  (x <=? 0) = false -> is_nan x || is_infinity x = false ->
  is_nan (c_log x) || is_infinity (c_log x) = false ->
  GrowthMonitoring64.log x = Ok (c_log x).
Proof.
  intros Hpos Hnum Hr. unfold GrowthMonitoring64.log.
  now rewrite Hpos, Hnum, Hr.
Qed.

(** The rates and doubling times of a constructed object. *)
Lemma constructed_on_doubles {libm : Libm} (name : string)
    (data : list float) (time : GrowthMonitoring64.ndarray)
    (gm : GrowthMonitoring64.t) :
  GrowthMonitoring64.__init__ name data time = Ok gm ->
  exists rates : list float,
    comprehension (GrowthMonitoring64.growth_rate data time)
      (seq 0 (length data - 1)) = Ok rates /\
    GrowthMonitoring64.µ gm = 0 :: rates /\
    comprehension (GrowthMonitoring64.doubling_time (0 :: rates))
      (seq 0 (S (length rates))) = Ok (GrowthMonitoring64.td gm).
Proof.
  intros Hgm. unfold GrowthMonitoring64.__init__ in Hgm.
  destruct (comprehension (GrowthMonitoring64.growth_rate data time) _)
    as [rates|e]; [|discriminate Hgm].
  cbn [mbind res_bind] in Hgm.
  destruct (comprehension (GrowthMonitoring64.doubling_time (0 :: rates)) _)
    as [tds|e] eqn:Htd; [|discriminate Hgm].
  injection Hgm as <-. exists rates. repeat split. exact Htd.
Qed.

(** The two-point series that doubles in ten units of time, with the
    logarithms rounded to the nearest double. *)
Lemma doubling_series_on_doubles {libm : Libm} (name : string) :
  c_log 2 = 0x1.62e42fefa39efp-1 ->
  c_log 100 = 0x1.26bb1bbb55516p+2 ->
  c_log 200 = 0x1.5317a1b949c53p+2 ->
  GrowthMonitoring64.__init__ name [100; 200] (GrowthMonitoring64.int64 [0; 10]%Z)
    = Ok {| GrowthMonitoring64.name := name;
            GrowthMonitoring64.data := [100; 200];
            GrowthMonitoring64.time := GrowthMonitoring64.int64 [0; 10]%Z;
            GrowthMonitoring64.µ := [0; 0x1.1be9bff2e94bap-4];
            GrowthMonitoring64.td := [0; 0x1.4000000000006p+3] |}.
Proof.
  intros H2 H100 H200.
  assert (L2 : GrowthMonitoring64.log 2 = Ok 0x1.62e42fefa39efp-1)
    by (rewrite <- H2; apply log_of_the_library; [reflexivity..|now rewrite H2]).
  assert (L100 : GrowthMonitoring64.log 100 = Ok 0x1.26bb1bbb55516p+2)
    by (rewrite <- H100; apply log_of_the_library;
        [reflexivity..|now rewrite H100]).
  assert (L200 : GrowthMonitoring64.log 200 = Ok 0x1.5317a1b949c53p+2)
    by (rewrite <- H200; apply log_of_the_library;
        [reflexivity..|now rewrite H200]).
  unfold GrowthMonitoring64.__init__, GrowthMonitoring64.growth_rate,
    GrowthMonitoring64.doubling_time, GrowthMonitoring64.time_step.
  cbn [length Nat.sub seq comprehension getitem lookup list_lookup Nat.add
       mbind res_bind].
  rewrite L200, L100. cbn [mbind res_bind].
  replace (GrowthMonitoring64.float_of_Z (GrowthMonitoring64.wrap (10 - 0)))
    with 10 by (vm_compute; reflexivity).
  replace ((0x1.5317a1b949c53p+2 - 0x1.26bb1bbb55516p+2) / 10)
    with 0x1.1be9bff2e94bap-4 by (vm_compute; reflexivity).
  replace (0x1.1be9bff2e94bap-4 <? 0) with false by (vm_compute; reflexivity).
  cbn [length seq comprehension getitem lookup list_lookup mbind res_bind].
  replace (0 =? 0) with true by (vm_compute; reflexivity).
  replace (0x1.1be9bff2e94bap-4 =? 0) with false by (vm_compute; reflexivity).
  cbn [negb]. rewrite L2. cbn [mbind res_bind].
  replace (0x1.62e42fefa39efp-1 / 0x1.1be9bff2e94bap-4)
    with 0x1.4000000000006p+3 by (vm_compute; reflexivity).
  reflexivity.
Qed.

(** The two-point series that does not grow, whatever the C library
    returns for the logarithm of 100. *)
Lemma flat_series_on_doubles {libm : Libm} (name : string) (l : float) :
  GrowthMonitoring64.log 100 = Ok l ->
  GrowthMonitoring64.__init__ name [100; 100] (GrowthMonitoring64.int64 [0; 10]%Z)
    = Ok {| GrowthMonitoring64.name := name;
            GrowthMonitoring64.data := [100; 100];
            GrowthMonitoring64.time := GrowthMonitoring64.int64 [0; 10]%Z;
            GrowthMonitoring64.µ := [0; 0];
            GrowthMonitoring64.td := [0; 0] |}.
Proof.
  intros L100.
  destruct (log_of_a_number 100 l eq_refl eq_refl L100) as (_ & Hnan & Hinf).
  unfold GrowthMonitoring64.__init__, GrowthMonitoring64.growth_rate,
    GrowthMonitoring64.doubling_time, GrowthMonitoring64.time_step.
  cbn [length Nat.sub seq comprehension getitem lookup list_lookup Nat.add
       mbind res_bind].
  rewrite L100. cbn [mbind res_bind].
  rewrite (sub_diag l Hnan Hinf).
  replace (GrowthMonitoring64.float_of_Z (GrowthMonitoring64.wrap (10 - 0)))
    with 10 by (vm_compute; reflexivity).
  replace (0 / 10) with 0 by (vm_compute; reflexivity).
  replace (0 <? 0) with false by (vm_compute; reflexivity).
  cbn [length seq comprehension getitem lookup list_lookup mbind res_bind].
  replace (0 =? 0) with true by (vm_compute; reflexivity).
  reflexivity.
Qed.

(** C6, as stated, fails on the doubles the code computes with: for
    quantities [100, 200] at times [0, 10], with the logarithms rounded
    to the nearest double, the rate at index 1 is not the double
    log(2) / 10 and the doubling time at index 1 is not 10.0. *)
Lemma C6_counterexample :
  exists (gm : GrowthMonitoring64.t) (rate d : float),
    GrowthMonitoring64.__init__ (libm := libm_on_examples) "culture"
      [100; 200] (GrowthMonitoring64.int64 [0; 10]%Z) = Ok gm /\
    GrowthMonitoring64.µ gm !! 1%nat = Some rate /\
    GrowthMonitoring64.td gm !! 1%nat = Some d /\
    (rate =? c_log (Libm := libm_on_examples) 2 / 10) = false /\
    (d =? 10) = false.
Proof.
  eexists _, _, _.
  split; [vm_compute; reflexivity|].
  split; [reflexivity|]. split; [reflexivity|].
  split; vm_compute; reflexivity.
Qed.

(** C6, amended: in every constructed GrowthMonitoring there is one
    doubling time per growth rate; where the rate compares equal to zero
    it is 0, and everywhere else it is the double quotient
    log(2) / rate, which is zero again for a rate that is an infinity
    and NaN for a rate that is NaN (the rates of a repeated time).
    Quantities [100, 200] at times [0, 10] give, with the logarithms of
    2, 100 and 200 rounded to the nearest double, the rate
    0.06931471805599446 and the doubling time 10.00000000000001 at
    index 1: five units in the last place under log(2) / 10 and six
    above 10.0. Quantities [100, 100] give the rate 0 and the doubling
    time 0 exactly, whatever the logarithm of 100 is. *)
Theorem C6_doubling_times :
  (forall (libm : Libm) (name : string) (data : list float)
          (time : GrowthMonitoring64.ndarray) (gm : GrowthMonitoring64.t),
      GrowthMonitoring64.__init__ name data time = Ok gm ->
      length (GrowthMonitoring64.td gm) = length (GrowthMonitoring64.µ gm) /\
      forall (i : nat) (m : float),
        GrowthMonitoring64.µ gm !! i = Some m ->
        ((m =? 0) = true -> GrowthMonitoring64.td gm !! i = Some 0) /\
        ((m =? 0) = false ->
         exists l2 : float,
           GrowthMonitoring64.log 2 = Ok l2 /\
           GrowthMonitoring64.td gm !! i = Some (l2 / m)) /\
        (is_infinity m = true ->
         exists d : float,
           GrowthMonitoring64.td gm !! i = Some d /\ (d =? 0) = true) /\
        (is_nan m = true ->
         exists d : float,
           GrowthMonitoring64.td gm !! i = Some d /\ is_nan d = true)) /\
  (forall (libm : Libm) (name : string),
      c_log 2 = 0x1.62e42fefa39efp-1 ->
      c_log 100 = 0x1.26bb1bbb55516p+2 ->
      c_log 200 = 0x1.5317a1b949c53p+2 ->
      exists gm : GrowthMonitoring64.t,
        GrowthMonitoring64.__init__ name [100; 200]
          (GrowthMonitoring64.int64 [0; 10]%Z) = Ok gm /\
        GrowthMonitoring64.µ gm !! 1%nat = Some 0x1.1be9bff2e94bap-4 /\
        GrowthMonitoring64.td gm !! 1%nat = Some 0x1.4000000000006p+3 /\
        c_log 2 / 10 - 0x1.1be9bff2e94bap-4 = 0x1.4p-54 /\
        0x1.4000000000006p+3 - 10 = 0x1.8p-47) /\
  (forall (libm : Libm) (name : string) (l : float),
      GrowthMonitoring64.log 100 = Ok l ->
      exists gm : GrowthMonitoring64.t,
        GrowthMonitoring64.__init__ name [100; 100]
          (GrowthMonitoring64.int64 [0; 10]%Z) = Ok gm /\
        GrowthMonitoring64.µ gm !! 1%nat = Some 0 /\
        GrowthMonitoring64.td gm !! 1%nat = Some 0).
Proof.
  split; [|split].
  - intros libm name data time gm Hgm.
    destruct (constructed_on_doubles name data time gm Hgm)
      as (rates & _ & Hmu & Htd).
    destruct (comprehension_lookup _ _ _ Htd) as [Hlen Hlook].
    rewrite Hmu. split; [now rewrite Hlen, length_seq|].
    intros i m Hm.
    destruct (Hlook i i) as (d & Hd & Hrun).
    { apply lookup_seq. split; [reflexivity|].
      apply lookup_lt_Some in Hm. exact Hm. }
    unfold GrowthMonitoring64.doubling_time, getitem in Hrun.
    rewrite Hm in Hrun. cbn [mbind res_bind] in Hrun.
    destruct (m =? 0) eqn:Hzero; cbn [negb] in Hrun.
    + injection Hrun as <-. split; [intros _; exact Hd|].
      split; [discriminate|]. split.
      * intros Hinf. exists 0. split; [exact Hd|reflexivity].
      * intros Hnan. destruct (div_by_nan 0 m Hnan) as [Hne _]. congruence.
    + split; [discriminate|].
      destruct (GrowthMonitoring64.log 2) as [l2|e] eqn:L2;
        [|discriminate Hrun].
      cbn [mbind res_bind] in Hrun. injection Hrun as <-.
      split; [intros _; now exists l2|].
      destruct (log_of_a_number 2 l2 eq_refl eq_refl L2) as (_ & Hnum & Hfin).
      split.
      * intros Hinf. exists (l2 / m). split; [exact Hd|].
        now apply div_by_infinity.
      * intros Hnan. exists (l2 / m). split; [exact Hd|].
        now apply div_by_nan.
  - intros libm name H2 H100 H200. eexists.
    split; [now apply doubling_series_on_doubles|].
    split; [reflexivity|]. split; [reflexivity|].
    rewrite H2. split; vm_compute; reflexivity.
  - intros libm name l L100. eexists.
    split; [now apply (flat_series_on_doubles name l)|].
    split; reflexivity.
Qed.

(** The constructor on times that are [2 ^ 63] apart or more: the int64
    step wraps to a negative number and the rate of a quantity that
    doubles is clamped to 0. *)
Example wrapped_time_step :
  GrowthMonitoring64.__init__ (libm := libm_on_examples) "culture"
    [100; 200]
    (GrowthMonitoring64.int64
       [-5000000000000000000; 5000000000000000000]%Z)
  = Ok {| GrowthMonitoring64.name := "culture";
          GrowthMonitoring64.data := [100; 200];
          GrowthMonitoring64.time :=
            GrowthMonitoring64.int64
              [-5000000000000000000; 5000000000000000000]%Z;
          GrowthMonitoring64.µ := [0; 0];
          GrowthMonitoring64.td := [0; 0] |}.
Proof. vm_compute. reflexivity. Qed.

(** X26: on doubles, whatever the logarithm of the C library and
    whatever the times (a zero step, a step that goes back, an int64
    step that wraps), a constructed GrowthMonitoring has one rate per
    quantity (one for no quantity), its first rate is 0 and none of its
    rates compares below zero. *)
Theorem X26_rates_on_doubles_are_not_below_zero {libm : Libm}
    (name : string) (data : list float) (time : GrowthMonitoring64.ndarray)
    (gm : GrowthMonitoring64.t) :
  GrowthMonitoring64.__init__ name data time = Ok gm ->
  length (GrowthMonitoring64.µ gm) = Nat.max 1 (length data) /\
  GrowthMonitoring64.µ gm !! 0%nat = Some 0 /\
  Forall (fun m => (m <? 0) = false) (GrowthMonitoring64.µ gm).
Proof.
  intros Hgm.
  destruct (constructed_on_doubles name data time gm Hgm)
    as (rates & Hrates & Hmu & _).
  destruct (comprehension_lookup _ _ _ Hrates) as [Hlen Hlook].
  rewrite length_seq in Hlen. rewrite Hmu.
  split; [simpl; lia|]. split; [reflexivity|].
  constructor; [reflexivity|].
  apply Forall_lookup. intros i m Hm.
  destruct (Hlook i i) as (m' & Hm' & Hrate).
  { apply lookup_seq. split; [reflexivity|].
    apply lookup_lt_Some in Hm. lia. }
  assert (m' = m) by congruence. subst m'.
  unfold GrowthMonitoring64.growth_rate in Hrate.
  destruct (getitem data (i + 1)) as [a|]; [|discriminate Hrate].
  cbn [mbind res_bind] in Hrate.
  destruct (GrowthMonitoring64.log a) as [la|]; [|discriminate Hrate].
  cbn [mbind res_bind] in Hrate.
  destruct (getitem data i) as [b|]; [|discriminate Hrate].
  cbn [mbind res_bind] in Hrate.
  destruct (GrowthMonitoring64.log b) as [lb|]; [|discriminate Hrate].
  cbn [mbind res_bind] in Hrate.
  destruct (GrowthMonitoring64.time_step time i) as [dt|];
    [|discriminate Hrate].
  cbn [mbind res_bind] in Hrate. injection Hrate as <-.
  destruct ((la - lb) / dt <? 0) eqn:Hd; [reflexivity|exact Hd].
Qed.

Lemma X26_witness :
  exists gm : GrowthMonitoring64.t,
    GrowthMonitoring64.__init__ (libm := libm_on_examples) "culture"
      [100; 200]
      (GrowthMonitoring64.int64
         [-5000000000000000000; 5000000000000000000]%Z) = Ok gm /\
    length (GrowthMonitoring64.µ gm) = 2%nat /\
    Forall (fun m => (m <? 0) = false) (GrowthMonitoring64.µ gm).
Proof.
  eexists. split; [exact wrapped_time_step|].
  destruct (X26_rates_on_doubles_are_not_below_zero
              (libm := libm_on_examples) _ _ _ _ wrapped_time_step)
    as (Hlen & _ & Hall).
  split; [exact Hlen|exact Hall].
Defined.

Lemma C6_witness :
  exists gm : GrowthMonitoring64.t,
    GrowthMonitoring64.__init__ (libm := libm_on_examples) "culture"
      [100; 200] (GrowthMonitoring64.int64 [0; 10]%Z) = Ok gm /\
    length (GrowthMonitoring64.td gm) = length (GrowthMonitoring64.µ gm) /\
    GrowthMonitoring64.µ gm !! 1%nat = Some 0x1.1be9bff2e94bap-4 /\
    GrowthMonitoring64.td gm !! 1%nat = Some 0x1.4000000000006p+3.
Proof.
  destruct C6_doubling_times as (Hall & Hdouble & _).
  destruct (Hdouble libm_on_examples "culture" eq_refl eq_refl eq_refl)
    as (gm & Hgm & Hmu & Htd & _).
  exists gm. split; [exact Hgm|].
  destruct (Hall libm_on_examples _ _ _ _ Hgm) as [Hlen _].
  now repeat split.
Defined.

End GrowthOnDoubles.

(** ** Splitting and joining *)

Section SplitFacts.

Variable sep : ascii.

Lemma append_String (c : ascii) (s1 s2 : string) :
  String c s1 +:+ s2 = String c (s1 +:+ s2).
Proof. reflexivity. Qed.

Lemma append_assoc (s1 s2 s3 : string) :
  (s1 +:+ s2) +:+ s3 = s1 +:+ s2 +:+ s3.
Proof.
  induction s1 as [|c s1 IH]; [reflexivity|].
  now rewrite !append_String, IH.
Qed.

Lemma split_nonempty (s : string) : pystr.split sep s <> [].
Proof.
  destruct s as [|c s]; simpl; [discriminate|].
  destruct (Ascii.eqb c sep); [discriminate|].
  destruct (pystr.split sep s); discriminate.
Qed.

(** Splitting distributes over a separator. *)
Lemma split_app_sep (s1 s2 : string) :
  pystr.split sep (s1 +:+ String sep s2)
    = pystr.split sep s1 ++ pystr.split sep s2.
Proof.
  induction s1 as [|c s1 IH].
  - change ("" +:+ String sep s2) with (String sep s2). simpl.
    now rewrite Ascii.eqb_refl.
  - rewrite append_String. simpl.
    destruct (Ascii.eqb c sep); [now rewrite IH|].
    rewrite IH.
    pose proof (split_nonempty s1) as Hne.
    destruct (pystr.split sep s1) as [|h t]; [contradiction|reflexivity].
Qed.

(** A piece holds no separator. *)
Lemma split_pieces (s : string) :
  Forall (fun p => pystr.split sep p = [p]) (pystr.split sep s).
Proof.
  induction s as [|c s IH]; simpl.
  - repeat constructor.
  - destruct (Ascii.eqb c sep) eqn:Hc; [constructor; [reflexivity|exact IH]|].
    pose proof (split_nonempty s) as Hne.
    destruct (pystr.split sep s) as [|h t]; [contradiction|].
    inversion IH as [|? ? Hh Ht]; subst.
    constructor; [|exact Ht]. simpl. now rewrite Hc, Hh.
Qed.

(** Strings without separator append to a string without separator. *)
Lemma split_app_whole (s1 s2 : string) :
  pystr.split sep s1 = [s1] -> pystr.split sep s2 = [s2] ->
  pystr.split sep (s1 +:+ s2) = [s1 +:+ s2].
Proof.
  intros H1 H2. induction s1 as [|c s1 IH]; [exact H2|].
  rewrite append_String. simpl in *.
  destruct (Ascii.eqb c sep); [discriminate H1|].
  pose proof (split_nonempty s1) as Hne.
  destruct (pystr.split sep s1) as [|h t]; [contradiction|].
  injection H1 as -> ->. now rewrite IH.
Qed.

End SplitFacts.

Lemma contains_elem_of (u : string) (l : list string) :
  u ∈ l -> pystr.contains u l = true.
Proof.
  intros Hu. unfold pystr.contains. apply existsb_exists.
  exists u. split; [now apply list_elem_of_In|apply String.eqb_refl].
Qed.

Lemma remove_elem_of (u : string) (l : list string) :
  u ∈ l -> exists l', pystr.remove u l = Ok l' /\ l ≡ₚ u :: l'.
Proof.
  induction l as [|x l IH]; intros Hu; [now apply elem_of_nil in Hu|].
  simpl. destruct (String.eqb x u) eqn:Hx.
  - apply String.eqb_eq in Hx as ->. now exists l.
  - apply elem_of_cons in Hu as [->|Hu];
      [now rewrite String.eqb_refl in Hx|].
    destruct (IH Hu) as (l' & -> & Hperm). simpl.
    exists (x :: l'). split; [reflexivity|].
    rewrite Hperm. apply Permutation_swap.
  Qed.

(** One turn of the division loop on a token present on both sides. *)
Lemma cancel_div_step (u : string) (l d d' : list string) :
  u ∈ d -> pystr.remove u d = Ok d' ->
  functions.cancel_div u [u :: l; d] = Ok [l; d'].
Proof.
  intros Hu Hrem.
  pose proof (contains_elem_of u d Hu) as Hin. unfold pystr.contains in Hin.
  unfold functions.cancel_div, functions.remove_both, pystr.contains. simpl.
  rewrite Hin. simpl. rewrite Hrem. simpl.
  now rewrite String.eqb_refl.
Qed.

(** The division loop of [units_combining] on a numerator and a
    denominator made of the same tokens removes every token. *)
Lemma cancel_div_all (l d : list string) :
  d ≡ₚ l -> for_each l functions.cancel_div [l; d] = Ok [[]; []].
Proof.
  revert d. induction l as [|u l IH]; intros d Hperm.
  - now apply Permutation_nil_r in Hperm as ->.
  - assert (Hu : u ∈ d) by (rewrite Hperm; apply elem_of_cons; now left).
    destruct (remove_elem_of u d Hu) as (d' & Hrem & Hd).
    change (for_each (u :: l) functions.cancel_div [u :: l; d])
      with (s' ← functions.cancel_div u [u :: l; d];
            for_each l functions.cancel_div s').
    rewrite (cancel_div_step u l d d' Hu Hrem).
    apply IH. apply (Permutation_cons_inv (a := u)).
    now rewrite <- Hd.
Qed.

(** What remains of a quotient once every token is cancelled. *)
Lemma simplify_all_cancelled (num den : string) :
  pystr.split functions.slash num = [num] ->
  pystr.split functions.slash den = [den] ->
  pystr.split functions.dot den ≡ₚ pystr.split functions.dot num ->
  functions.simplify (num +:+ "/" +:+ den) "/" = Ok "".
Proof.
  intros Hnum Hden Hperm. unfold functions.simplify.
  change (num +:+ "/" +:+ den) with (num +:+ String functions.slash den).
  rewrite split_app_sep, Hnum, Hden. simpl.
  rewrite (cancel_div_all _ _ Hperm). reflexivity.
Qed.

(** C8: for every unit string with at most one "/" (a single token, or a
    numerator and a denominator), the quotient of the unit by itself is
    the empty unit string. *)
Theorem C8_unit_divided_by_itself (A : string) :
  (length (pystr.split functions.slash A) <= 2)%nat ->
  functions.units_combining [Some A; Some A] "/" = Ok (Some "").
Proof.
  intros Hlen.
  pose proof (split_pieces functions.slash A) as Hpieces.
  pose proof (split_nonempty functions.slash A) as Hne.
  unfold functions.units_combining. simpl.
  destruct (pystr.split functions.slash A) as [|X [|Y [|Z rest]]];
    [contradiction| | |simpl in Hlen; lia].
  - inversion Hpieces as [|? ? HX _]; subst.
    change (functions.build_message [[X]; [X]] "/") with (Ok (X +:+ "/" +:+ X)).
    simpl. now rewrite simplify_all_cancelled.
  - inversion Hpieces as [|? ? HX HYs]; subst.
    inversion HYs as [|? ? HY _]; subst.
    change (functions.build_message [[X; Y]; [X; Y]] "/")
      with (Ok (X +:+ "." +:+ Y +:+ "/" +:+ Y +:+ "." +:+ X)).
    simpl.
    rewrite <- (append_assoc "." Y), <- (append_assoc X).
    rewrite simplify_all_cancelled; [reflexivity| | |].
    + apply split_app_whole; [exact HX|].
      now apply (split_app_whole functions.slash ".").
    + apply split_app_whole; [exact HY|].
      now apply (split_app_whole functions.slash ".").
    + change ("." +:+ X) with (String functions.dot X).
      change ("." +:+ Y) with (String functions.dot Y).
      rewrite !split_app_sep. apply Permutation_app_comm.
Qed.

Lemma C8_witness :
  functions.units_combining [Some "g"; Some "g"] "/" = Ok (Some "") /\
  functions.units_combining [Some "g/mL"; Some "g/mL"] "/" = Ok (Some "").
Proof.
  split.
  - apply (C8_unit_divided_by_itself "g"). simpl. lia.
  - apply (C8_unit_divided_by_itself "g/mL"). simpl. lia.
Defined.

(** ** More on the unit algebra *)

(** Joining the pieces of a split gives the string back. *)
Lemma join_split (sep : ascii) (s : string) :
  pystr.join (String sep "") (pystr.split sep s) = s.
Proof.
  induction s as [|c s IH]; [reflexivity|]. simpl.
  pose proof (split_nonempty sep s) as Hne.
  destruct (Ascii.eqb c sep) eqn:Hc.
  - apply Ascii.eqb_eq in Hc as ->.
    destruct (pystr.split sep s) as [|h t]; [contradiction|].
    change (pystr.join (String sep "") ("" :: h :: t))
      with (String sep (pystr.join (String sep "") (h :: t))).
    now rewrite IH.
  - destruct (pystr.split sep s) as [|h [|h' t]]; [contradiction| |].
    + simpl in *. now rewrite IH.
    + change (pystr.join (String sep "") (String c h :: h' :: t))
        with (String c (pystr.join (String sep "") (h :: h' :: t))).
      now rewrite IH.
Qed.

Lemma split_attr_whole (s : string) :
  pystr.split functions.slash s = [s] ->
  pystr.split_attr functions.slash (Some s) = Ok [s].
Proof. intros Hs. unfold pystr.split_attr. now rewrite Hs. Qed.

Lemma eqb_empty_append (s1 s2 : string) (c : ascii) :
  String.eqb "" (s1 +:+ String c s2) = false.
Proof. now destruct s1. Qed.

Lemma dotted_has_no_slash (s1 s2 : string) :
  pystr.split functions.slash s1 = [s1] ->
  pystr.split functions.slash s2 = [s2] ->
  pystr.split functions.slash (s1 +:+ "." +:+ s2) = [s1 +:+ "." +:+ s2].
Proof.
  intros H1 H2. apply split_app_whole; [exact H1|].
  now apply (split_app_whole functions.slash ".").
Qed.

Lemma split_dotted (s1 s2 : string) :
  pystr.split functions.dot (s1 +:+ "." +:+ s2)
    = pystr.split functions.dot s1 ++ pystr.split functions.dot s2.
Proof.
  change (s1 +:+ "." +:+ s2) with (s1 +:+ String functions.dot s2).
  apply split_app_sep.
Qed.

Lemma split_slashed (s1 s2 : string) :
  pystr.split functions.slash s1 = [s1] ->
  pystr.split functions.slash s2 = [s2] ->
  pystr.split functions.slash (s1 +:+ "/" +:+ s2) = [s1; s2].
Proof.
  intros H1 H2.
  change (s1 +:+ "/" +:+ s2) with (s1 +:+ String functions.slash s2).
  now rewrite split_app_sep, H1, H2.
Qed.

(** The last step of [units_combining] on a message without "/". *)
Lemma final_check_plain (m : string) :
  pystr.split functions.slash m = [m] ->
  (if pystr.contains "" (pystr.split functions.slash m)
   then getitem (pystr.split functions.slash m) 0
   else Ok m) = Ok m.
Proof.
  intros Hm. rewrite Hm. unfold pystr.contains. simpl.
  destruct m; reflexivity.
Qed.

(** Outside a division, a message without "/" has nothing to cancel. *)
Lemma simplify_plain (m operation : string) :
  String.eqb operation "/" = false ->
  pystr.split functions.slash m = [m] ->
  functions.simplify m operation = Ok m.
Proof.
  intros Hop Hm. unfold functions.simplify. rewrite Hop, Hm.
  change (pystr.split functions.dot <$> [m])
    with [pystr.split functions.dot m].
  change (getitem [pystr.split functions.dot m] 0)
    with (Ok (pystr.split functions.dot m)).
  assert (Hjoin : pystr.join "." (pystr.split functions.dot m) = m)
    by apply (join_split functions.dot).
  simpl. rewrite Hjoin.
  destruct (length (pystr.split functions.dot m) =? 1)%nat;
    exact (final_check_plain m Hm).
Qed.

(** X1: the product of two units without "/" is the two units joined by
    ".", whatever tokens they hold. *)
Theorem X1_product_of_plain_units (A B : string) :
  pystr.split functions.slash A = [A] ->
  pystr.split functions.slash B = [B] ->
  functions.units_combining [Some A; Some B] "*"
    = Ok (Some (A +:+ "." +:+ B)).
Proof.
  intros HA HB.
  unfold functions.units_combining. simpl.
  rewrite HA, HB. simpl.
  change (functions.build_message [[A]; [B]] "*")
    with (Ok (A +:+ "." +:+ B)).
  simpl.
  now rewrite simplify_plain by (reflexivity || now apply dotted_has_no_slash).
Qed.

Lemma X1_witness :
  functions.units_combining [Some "kg.m"; Some "s.s"] "*" = Ok (Some "kg.m.s.s").
Proof. apply (X1_product_of_plain_units "kg.m" "s.s"); reflexivity. Defined.

(** The division loop on the tokens [A; B] over the token [B]. *)
Lemma cancel_div_product (A B : string) :
  for_each [A; B] functions.cancel_div [[A; B]; [B]] = Ok [[A]; []].
Proof.
  unfold for_each, functions.cancel_div, functions.remove_both, pystr.contains.
  simpl. destruct (String.eqb A B) eqn:HAB; simpl.
  - apply String.eqb_eq in HAB as ->.
    repeat (rewrite ?String.eqb_refl; simpl). reflexivity.
  - repeat (rewrite ?String.eqb_refl, ?HAB; simpl). reflexivity.
Qed.

(** X2: for units A and B that are single tokens (no "/" and no "."),
    the product of A and B divided by B is A again. *)
Theorem X2_round_trip_of_tokens (A B : string) :
  pystr.split functions.slash A = [A] -> pystr.split functions.dot A = [A] ->
  pystr.split functions.slash B = [B] -> pystr.split functions.dot B = [B] ->
  exists P : string,
    functions.units_combining [Some A; Some B] "*" = Ok (Some P) /\
    functions.units_combining [Some P; Some B] "/" = Ok (Some A).
Proof.
  intros HA HdA HB HdB. exists (A +:+ "." +:+ B).
  split; [now apply X1_product_of_plain_units|].
  pose proof (dotted_has_no_slash A B HA HB) as HP.
  unfold functions.units_combining. simpl.
  rewrite HP, HB. simpl.
  change (functions.build_message [[A +:+ "." +:+ B]; [B]] "/")
    with (Ok ((A +:+ "." +:+ B) +:+ "/" +:+ B)).
  simpl. unfold functions.simplify.
  rewrite (split_slashed _ _ HP HB).
  change (pystr.split functions.dot <$> [A +:+ "." +:+ B; B])
    with [pystr.split functions.dot (A +:+ "." +:+ B);
          pystr.split functions.dot B].
  rewrite split_dotted, HdA, HdB.
  change (getitem [[A] ++ [B]; [B]] 0) with (Ok [A; B]).
  change ([A] ++ [B]) with [A; B].
  change (String.eqb "/" "/") with true.
  cbn -[for_each functions.cancel_div]. rewrite cancel_div_product. simpl.
  change (A +:+ "/" +:+ "") with (A +:+ String functions.slash "").
  rewrite split_app_sep, HA. clear. now destruct A.
Qed.

Lemma X2_witness :
  exists P : string,
    functions.units_combining [Some "mol"; Some "L"] "*" = Ok (Some P) /\
    functions.units_combining [Some P; Some "L"] "/" = Ok (Some "mol").
Proof. apply (X2_round_trip_of_tokens "mol" "L"); reflexivity. Defined.

(** The multiplication loop over a denominator of one token: its first
    turn reads the second token of the denominator. *)
Lemma simplify_product_over_token (N1 N2 D : string) :
  pystr.split functions.slash N1 = [N1] ->
  pystr.split functions.slash N2 = [N2] ->
  pystr.split functions.slash D = [D] ->
  pystr.split functions.dot D = [D] ->
  functions.simplify ((N1 +:+ "." +:+ N2) +:+ "/" +:+ D) "*" = Raise IndexError.
Proof.
  intros H1 H2 HD HdD. unfold functions.simplify.
  rewrite (split_slashed _ _ (dotted_has_no_slash N1 N2 H1 H2) HD).
  change (pystr.split functions.dot <$> [N1 +:+ "." +:+ N2; D])
    with [pystr.split functions.dot (N1 +:+ "." +:+ N2);
          pystr.split functions.dot D].
  rewrite split_dotted, HdD.
  pose proof (split_nonempty functions.dot N1) as Hne1.
  pose proof (split_nonempty functions.dot N2) as Hne2.
  destruct (pystr.split functions.dot N1) as [|a ta]; [contradiction|].
  destruct (pystr.split functions.dot N2) as [|b tb]; [contradiction|].
  change (String.eqb "*" "/") with false.
  cbn -[for_each enumerate Nat.eqb length].
  replace (length (a :: ta ++ b :: tb) =? 1)%nat with false
    by (symmetry; apply Nat.eqb_neq; simpl; rewrite length_app; simpl; lia).
  reflexivity.
Qed.

(** X3: the product of a fraction X/Y whose denominator is one token and
    a unit without "/" raises [IndexError], in either order of the two
    operands. *)
Theorem X3_product_of_fraction_and_token_raises (X Y Z : string) :
  pystr.split functions.slash X = [X] ->
  pystr.split functions.slash Y = [Y] -> pystr.split functions.dot Y = [Y] ->
  pystr.split functions.slash Z = [Z] ->
  functions.units_combining [Some (X +:+ "/" +:+ Y); Some Z] "*"
    = Raise IndexError /\
  functions.units_combining [Some Z; Some (X +:+ "/" +:+ Y)] "*"
    = Raise IndexError.
Proof.
  intros HX HY HdY HZ.
  pose proof (split_slashed X Y HX HY) as HXY.
  split; unfold functions.units_combining; simpl; rewrite HXY, HZ; simpl.
  - change (functions.build_message [[X; Y]; [Z]] "*")
      with (Ok (X +:+ "." +:+ Z +:+ "/" +:+ Y)).
    simpl. rewrite <- (append_assoc "." Z), <- (append_assoc X).
    now rewrite simplify_product_over_token.
  - change (functions.build_message [[Z]; [X; Y]] "*")
      with (Ok (Z +:+ "." +:+ X +:+ "/" +:+ Y)).
    simpl. rewrite <- (append_assoc "." X), <- (append_assoc Z).
    now rewrite simplify_product_over_token.
Qed.

Lemma X3_witness :
  functions.units_combining [Some "kg.m/s"; Some "s"] "*" = Raise IndexError /\
  functions.units_combining [Some "s"; Some "kg.m/s"] "*" = Raise IndexError.
Proof.
  apply (X3_product_of_fraction_and_token_raises "kg.m" "s" "s"); reflexivity.
Defined.

Lemma comprehension_split_attr (units : list (option string)) :
  Forall is_Some units ->
  exists pieces : list (list string),
    comprehension (pystr.split_attr functions.slash) units = Ok pieces.
Proof.
  intros Hunits. apply comprehension_returns.
  eapply Forall_impl; [exact Hunits|].
  intros u [s ->]. now eexists.
Qed.

(** X4: an operation that is none of "+", "-", "*" and "/" is not
    rejected: on at most two unit strings the result is the empty unit
    string. *)
Theorem X4_unknown_operation_gives_empty_unit
    (units : list (option string)) (operation : string) :
  (length units <= 2)%nat -> Forall is_Some units ->
  operation <> "+" -> operation <> "-" ->
  operation <> "*" -> operation <> "/" ->
  functions.units_combining units operation = Ok (Some "").
Proof.
  intros Hlen Hunits Hadd Hsub Hmul Hdiv.
  apply String.eqb_neq in Hadd, Hsub, Hmul, Hdiv.
  unfold functions.units_combining.
  replace (2 <? length units)%nat with false
    by (symmetry; apply Nat.ltb_ge; lia).
  rewrite Hadd, Hsub.
  destruct (comprehension_split_attr units Hunits) as [pieces ->]. simpl.
  unfold functions.build_message, pystr.contains. simpl.
  rewrite Hmul, Hdiv. simpl.
  now rewrite simplify_plain.
Qed.

Lemma X4_witness :
  functions.units_combining [Some "g"; Some "mL"] "^" = Ok (Some "").
Proof.
  apply X4_unknown_operation_gives_empty_unit;
    [simpl; lia|repeat constructor; eexists; reflexivity| | | |];
    discriminate.
Defined.

(** X5: the quotient of two different single tokens A and B is "A/B" when
    neither is empty, and is A when one of them is the empty string (so
    the empty unit divided by B is the empty unit, not "/B"). *)
Theorem X5_quotient_of_tokens (A B : string) :
  pystr.split functions.slash A = [A] -> pystr.split functions.dot A = [A] ->
  pystr.split functions.slash B = [B] -> pystr.split functions.dot B = [B] ->
  A <> B ->
  (A <> "" -> B <> "" ->
   functions.units_combining [Some A; Some B] "/"
     = Ok (Some (A +:+ "/" +:+ B))) /\
  (A = "" \/ B = "" ->
   functions.units_combining [Some A; Some B] "/" = Ok (Some A)).
Proof.
  intros HA HdA HB HdB HAB.
  assert (Hrun : functions.units_combining [Some A; Some B] "/" =
            ((if pystr.contains "" [A; B] then Ok A
              else Ok (A +:+ "/" +:+ B))
             ≫= fun message => Ok (Some message))).
  { unfold functions.units_combining. simpl. rewrite HA, HB. simpl.
    change (functions.build_message [[A]; [B]] "/")
      with (Ok (A +:+ "/" +:+ B)).
    simpl. unfold functions.simplify.
    rewrite (split_slashed A B HA HB).
    change (pystr.split functions.dot <$> [A; B])
      with [pystr.split functions.dot A; pystr.split functions.dot B].
    rewrite HdA, HdB.
    change (String.eqb "/" "/") with true.
    apply String.eqb_neq in HAB.
    unfold for_each, functions.cancel_div, pystr.contains. simpl.
    rewrite HAB. simpl.
    rewrite (split_slashed A B HA HB). reflexivity. }
  rewrite Hrun. unfold pystr.contains. simpl. split.
  - intros HnA HnB. destruct A; [contradiction|]. destruct B; [contradiction|].
    reflexivity.
  - intros [-> | ->]; [reflexivity|]. destruct A; [contradiction|reflexivity].
Qed.

Lemma X5_witness :
  functions.units_combining [Some "mol"; Some "L"] "/" = Ok (Some "mol/L") /\
  functions.units_combining [Some ""; Some "s"] "/" = Ok (Some "").
Proof.
  split.
  - apply (X5_quotient_of_tokens "mol" "L"); try reflexivity; discriminate.
  - apply (X5_quotient_of_tokens "" "s"); try reflexivity;
      [discriminate|now left].
Defined.

(** X6: the errors of [units_combining]. More than two units raise
    [ValueError] whatever the operation; with an operation other than "+"
    and "-", a unit that is [None] raises [AttributeError]; a single unit
    with at most one "/" raises [IndexError] under "*" and "/"; an empty
    list raises [IndexError] under "+" and "-". *)
Theorem X6_errors_of_units_combining :
  (forall (units : list (option string)) (operation : string),
      (2 < length units)%nat ->
      functions.units_combining units operation = Raise ValueError) /\
  (forall (a b : option string) (operation : string),
      operation <> "+" -> operation <> "-" -> a = None \/ b = None ->
      functions.units_combining [a; b] operation = Raise AttributeError) /\
  (forall A : string,
      (length (pystr.split functions.slash A) <= 2)%nat ->
      functions.units_combining [Some A] "*" = Raise IndexError /\
      functions.units_combining [Some A] "/" = Raise IndexError) /\
  functions.units_combining [] "+" = Raise IndexError /\
  functions.units_combining [] "-" = Raise IndexError.
Proof.
  split; [|split; [|split; [|split; reflexivity]]].
  - intros units operation Hlen. unfold functions.units_combining.
    now replace (2 <? length units)%nat with true
      by (symmetry; apply Nat.ltb_lt; lia).
  - intros a b operation Hadd Hsub Hnone.
    apply String.eqb_neq in Hadd, Hsub.
    unfold functions.units_combining. simpl. rewrite Hadd, Hsub.
    destruct Hnone as [-> | ->]; [reflexivity|]. now destruct a.
  - intros A Hlen.
    pose proof (split_nonempty functions.slash A) as Hne.
    unfold functions.units_combining. simpl.
    destruct (pystr.split functions.slash A) as [|X [|Y [|Z rest]]];
      [contradiction| | |simpl in Hlen; lia]; split; reflexivity.
Qed.

Lemma X6_witness :
  functions.units_combining [Some "g"; Some "mL"; Some "s"] "+"
    = Raise ValueError /\
  functions.units_combining [Some "g"; None] "*" = Raise AttributeError /\
  functions.units_combining [Some "g/mL"] "/" = Raise IndexError.
Proof.
  destruct X6_errors_of_units_combining as (Hmany & Hnone & Hone & _).
  split; [apply Hmany; simpl; lia|].
  split; [apply Hnone; [discriminate|discriminate|now right]|].
  apply (Hone "g/mL"). simpl. lia.
Defined.

(** ** More on the operators of Stat *)

Section StatMore.

Context {V : Type} {red : functions.Reductions V}.

(** A recomputation that returns has refreshed the eight statistics and
    touched nothing else. *)
Lemma recompute_statistics_returns (s1 s2 : Stat.t V) :
  Stat.recompute_statistics s1 = (Ok (), s2) ->
  Stat.data s2 = Stat.data s1 /\ Stat.unit s2 = Stat.unit s1 /\
  Stat.name s2 = Stat.name s1 /\ Stat.discrete s2 = Stat.discrete s1 /\
  consistent s2.
Proof.
  intros H.
  unfold Stat.recompute_statistics, Stat.recompute, Stat.bind, Stat.read,
    Stat.call, Stat.assign in H.
  simpl in H.
  repeat match type of H with
         | context [match ?r with Ok _ => _ | Raise _ => _ end] =>
             destruct r eqn:?; [|discriminate H]
         end.
  injection H as <-. unfold consistent. simpl. repeat split; assumption.
Qed.

(** What an operator has done when it returns. *)
Lemma operator_returns (o : Stat.operator) (other v : Stat.pyobj V)
    (self self' : Stat.t V) :
  Stat.method o other self = (Ok v, self') ->
  exists (s s2 : Stat.t V) (d' : list Q),
    other = Stat.PyStat s /\
    Stat.recompute_statistics (Stat.set_data d' self) = (Ok (), s2) /\
    match o with
    | Stat.Add =>
        d' = zip_with Qplus (Stat.data self) (Stat.data s) /\
        Stat.unit self = Stat.unit s /\ self' = s2
    | Stat.Sub =>
        d' = zip_with Qminus (Stat.data self) (Stat.data s) /\
        Stat.unit self = Stat.unit s /\ self' = s2
    | Stat.Mul =>
        d' = zip_with Qmult (Stat.data self) (Stat.data s) /\
        exists u', functions.units_combining [Stat.unit s2; Stat.unit s] "*"
                     = Ok u' /\ self' = Stat.set_unit u' s2
    | Stat.Div =>
        comprehension Stat.truediv (zip (Stat.data self) (Stat.data s))
          = Ok d' /\
        exists u', functions.units_combining [Stat.unit s2; Stat.unit s] "/"
                     = Ok u' /\ self' = Stat.set_unit u' s2
    end.
Proof.
  intros Hrun.
  destruct other as [| | |s]; try (destruct o; discriminate Hrun).
  destruct o; simpl in Hrun.
  - unfold Stat.__add__ in Hrun.
    unfold Stat.bind at 1, Stat.read at 1 in Hrun. simpl in Hrun.
    destruct (bool_decide _) eqn:Hu; [discriminate Hrun|].
    apply bool_decide_eq_false in Hu. apply dec_stable in Hu.
    unfold Stat.bind at 1, Stat.read at 1 in Hrun. simpl in Hrun.
    unfold Stat.bind at 1, Stat.assign at 1 in Hrun. simpl in Hrun.
    unfold Stat.bind in Hrun.
    destruct (Stat.recompute_statistics _) as [[[]|e] s2] eqn:Hrec;
      [|discriminate Hrun].
    injection Hrun as <- <-. now exists s, s2, (zip_with Qplus (Stat.data self) (Stat.data s)).
  - unfold Stat.__sub__ in Hrun.
    unfold Stat.bind at 1, Stat.read at 1 in Hrun. simpl in Hrun.
    destruct (bool_decide _) eqn:Hu; [discriminate Hrun|].
    apply bool_decide_eq_false in Hu. apply dec_stable in Hu.
    unfold Stat.bind at 1, Stat.read at 1 in Hrun. simpl in Hrun.
    unfold Stat.bind at 1, Stat.assign at 1 in Hrun. simpl in Hrun.
    unfold Stat.bind in Hrun.
    destruct (Stat.recompute_statistics _) as [[[]|e] s2] eqn:Hrec;
      [|discriminate Hrun].
    injection Hrun as <- <-. now exists s, s2, (zip_with Qminus (Stat.data self) (Stat.data s)).
  - unfold Stat.__mul__ in Hrun.
    unfold Stat.bind at 1, Stat.read at 1 in Hrun. simpl in Hrun.
    unfold Stat.bind at 1, Stat.assign at 1 in Hrun. simpl in Hrun.
    unfold Stat.bind, Stat.read, Stat.call, Stat.assign, Stat.ret in Hrun.
    destruct (Stat.recompute_statistics _) as [[[]|e] s2] eqn:Hrec;
      [|discriminate Hrun].
    simpl in Hrun.
    destruct (functions.units_combining _ _) as [u'|e] eqn:Hunits;
      [|discriminate Hrun].
    injection Hrun as <- <-.
    exists s, s2, (zip_with Qmult (Stat.data self) (Stat.data s)).
    repeat split; try assumption. now exists u'.
  - unfold Stat.__truediv__ in Hrun.
    unfold Stat.bind at 1, Stat.read at 1 in Hrun. simpl in Hrun.
    unfold Stat.bind at 1, Stat.call at 1 in Hrun.
    destruct (comprehension Stat.truediv _) as [d'|e] eqn:Hdiv;
      [|discriminate Hrun].
    unfold Stat.bind at 1, Stat.assign at 1 in Hrun. simpl in Hrun.
    unfold Stat.bind, Stat.read, Stat.call, Stat.assign, Stat.ret in Hrun.
    destruct (Stat.recompute_statistics _) as [[[]|e] s2] eqn:Hrec;
      [|discriminate Hrun].
    simpl in Hrun.
    destruct (functions.units_combining _ _) as [u'|e] eqn:Hunits;
      [|discriminate Hrun].
    injection Hrun as <- <-.
    exists s, s2, d'. repeat split; try assumption. now exists u'.
Qed.

Lemma consistent_set_unit (u : option string) (s : Stat.t V) :
  consistent s -> consistent (Stat.set_unit u s).
Proof. intros H. exact H. Qed.

(** The eight assignments go through when no reduction raises on the
    data, and touch neither the data nor the unit. *)
Lemma recompute_statistics_runs (s1 : Stat.t V) :
  reductions_return (Stat.data s1) ->
  exists s2 : Stat.t V,
    Stat.recompute_statistics s1 = (Ok (), s2) /\
    Stat.data s2 = Stat.data s1 /\ Stat.unit s2 = Stat.unit s1.
Proof.
  intros (Hmean & Hstd & Hmed & Hq1 & Hq3 & Hiqr & Hout & Hrem).
  unfold Stat.recompute_statistics, Stat.recompute, Stat.bind, Stat.read,
    Stat.call, Stat.assign.
  simpl.
  destruct (functions.mean (Stat.data s1)); [simpl|discriminate Hmean].
  destruct (functions.std (Stat.data s1)); [simpl|discriminate Hstd].
  destruct (functions.median (Stat.data s1)); [simpl|discriminate Hmed].
  destruct (functions.first_quartile (Stat.data s1));
    [simpl|discriminate Hq1].
  destruct (functions.third_quartile (Stat.data s1));
    [simpl|discriminate Hq3].
  destruct (functions.iqr (Stat.data s1)); [simpl|discriminate Hiqr].
  destruct (functions.outliers (Stat.data s1)); [simpl|discriminate Hout].
  destruct (functions.remove_outliers (Stat.data s1));
    [simpl|discriminate Hrem].
  eexists. repeat split.
Qed.

(** The quotients of paired entries, when no divisor is zero. *)
Lemma quotients_return (l1 l2 : list Q) :
  (forall (i : nat) (x y : Q),
      l1 !! i = Some x -> l2 !! i = Some y -> ~ (y == 0)%Q) ->
  comprehension Stat.truediv (zip l1 l2) = Ok (zip_with Qdiv l1 l2).
Proof.
  revert l2. induction l1 as [|x l1 IH]; intros [|y l2] Hnz; try reflexivity.
  simpl. rewrite IH
    by (intros i x' y' Hx' Hy'; exact (Hnz (S i) x' y' Hx' Hy')).
  unfold Stat.truediv. simpl.
  destruct (Qeq_bool y 0) eqn:Hy; [|reflexivity].
  apply Qeq_bool_iff in Hy. now destruct (Hnz 0%nat x y).
Qed.

(** C10: each of the four operators, on a right operand that is a [Stat]
    it accepts (the same unit for + and -, no zero divisor for /, units
    that [units_combining] combines for * and /) and on data the
    reductions return on, replaces the data of the receiver by the
    element-wise result, sets its unit, and returns [None]; an operator
    never returns anything else. So the value of [a + b] is [None], and
    used as the left operand of a further operator it makes that
    operator raise [TypeError]. *)
Theorem C10_operators_return_None (o o' : Stat.operator)
    (self s c : Stat.t V) (d : list Q) (u : option string) :
  match o with
  | Stat.Add =>
      Stat.unit self = Stat.unit s /\ u = Stat.unit self /\
      d = zip_with Qplus (Stat.data self) (Stat.data s)
  | Stat.Sub =>
      Stat.unit self = Stat.unit s /\ u = Stat.unit self /\
      d = zip_with Qminus (Stat.data self) (Stat.data s)
  | Stat.Mul =>
      functions.units_combining [Stat.unit self; Stat.unit s] "*" = Ok u /\
      d = zip_with Qmult (Stat.data self) (Stat.data s)
  | Stat.Div =>
      functions.units_combining [Stat.unit self; Stat.unit s] "/" = Ok u /\
      d = zip_with Qdiv (Stat.data self) (Stat.data s) /\
      forall (i : nat) (x y : Q),
        Stat.data self !! i = Some x -> Stat.data s !! i = Some y ->
        ~ (y == 0)%Q
  end ->
  reductions_return d ->
  (exists self' : Stat.t V,
      Stat.method o (Stat.PyStat s) self = (Ok Stat.PyNone, self') /\
      Stat.data self' = d /\ Stat.unit self' = u /\
      Stat.binop o (Stat.PyStat self) s = (Ok Stat.PyNone, Stat.PyStat self') /\
      forall v : Stat.pyobj V,
        (Stat.binop o (Stat.PyStat self) s).1 = Ok v ->
        Stat.binop o' v c = (Raise TypeError, Stat.PyNone)) /\
  (forall (other v : Stat.pyobj V) (self' : Stat.t V),
      Stat.method o other self = (Ok v, self') ->
      v = Stat.PyNone /\
      Stat.binop o' v c = (Raise TypeError, Stat.PyNone)).
Proof.
  intros Hop Hred. split.
  - assert (Hrun : exists self' : Stat.t V,
               Stat.method o (Stat.PyStat s) self = (Ok Stat.PyNone, self') /\
               Stat.data self' = d /\ Stat.unit self' = u).
    { destruct (recompute_statistics_runs (Stat.set_data d self) Hred)
        as (s2 & Hrec & Hdata & Hunit).
      simpl in Hdata, Hunit.
      destruct o; unfold Stat.method.
      - destruct Hop as (Hu & -> & ->).
        rewrite (add_same_unit self s Hu). unfold Stat.bind. rewrite Hrec.
        exists s2. now repeat split.
      - destruct Hop as (Hu & -> & ->).
        unfold Stat.__sub__. unfold Stat.bind at 1, Stat.read at 1. simpl.
        rewrite bool_decide_false by (intros H; now apply H).
        unfold Stat.bind at 1, Stat.read at 1. simpl.
        unfold Stat.bind at 1, Stat.assign at 1. simpl.
        unfold Stat.bind. rewrite Hrec.
        exists s2. now repeat split.
      - destruct Hop as (Hunits & ->).
        unfold Stat.__mul__. unfold Stat.bind at 1, Stat.read at 1. simpl.
        unfold Stat.bind at 1, Stat.assign at 1. simpl.
        unfold Stat.bind, Stat.read, Stat.call, Stat.assign, Stat.ret.
        rewrite Hrec. simpl. rewrite Hunit, Hunits.
        eexists. repeat split. exact Hdata.
      - destruct Hop as (Hunits & -> & Hnz).
        unfold Stat.__truediv__. unfold Stat.bind at 1, Stat.read at 1. simpl.
        unfold Stat.bind at 1, Stat.call at 1.
        rewrite (quotients_return _ _ Hnz).
        unfold Stat.bind at 1, Stat.assign at 1. simpl.
        unfold Stat.bind, Stat.read, Stat.call, Stat.assign, Stat.ret.
        rewrite Hrec. simpl. rewrite Hunit, Hunits.
        eexists. repeat split. exact Hdata. }
    destruct Hrun as (self' & Hrun & Hdata & Hunit).
    assert (Hbin : Stat.binop o (Stat.PyStat self) s
                   = (Ok Stat.PyNone, Stat.PyStat self'))
      by (unfold Stat.binop; now rewrite Hrun).
    exists self'. repeat (split; [assumption|]).
    intros v Hv. rewrite Hbin in Hv. injection Hv as <-. reflexivity.
  - intros other v self' Hrun.
    destruct (returned_value_is_None o o' self self' c other v Hrun)
      as (Hv & _ & Hchain).
    now split.
Qed.

(** X7: the cached statistics follow the data. A [Stat] that the
    constructor returns holds, for each of its eight statistics, what the
    reduction returns on its data; so does the receiver of any of the four
    operators when the operator returns, and its name and its discrete
    flag are the ones it had. *)
Theorem X7_statistics_follow_the_data :
  (forall (name : string) (data : list Q) (unit : option string)
          (discrete : bool) (s : Stat.t V),
      Stat.__init__ name data unit discrete = Ok s ->
      consistent s /\ Stat.data s = data /\ Stat.unit s = unit) /\
  (forall (o : Stat.operator) (other v : Stat.pyobj V) (self self' : Stat.t V),
      Stat.method o other self = (Ok v, self') ->
      consistent self' /\ Stat.name self' = Stat.name self /\
      Stat.discrete self' = Stat.discrete self).
Proof.
  split.
  - intros name data unit discrete s H. unfold Stat.__init__ in H.
    destruct (functions.mean data) eqn:Hmean; simpl in H; [|discriminate H].
    destruct (functions.std data) eqn:Hstd; simpl in H; [|discriminate H].
    destruct (functions.median data) eqn:Hmed; simpl in H; [|discriminate H].
    destruct (functions.first_quartile data) eqn:Hq1; simpl in H;
      [|discriminate H].
    destruct (functions.third_quartile data) eqn:Hq3; simpl in H;
      [|discriminate H].
    destruct (functions.iqr data) eqn:Hiqr; simpl in H; [|discriminate H].
    destruct (functions.outliers data) eqn:Hout; simpl in H; [|discriminate H].
    destruct (functions.remove_outliers data) eqn:Hrem; simpl in H;
      [|discriminate H].
    injection H as <-. unfold consistent. simpl.
    repeat split; assumption.
  - intros o other v self self' Hrun.
    destruct (operator_returns o other v self self' Hrun)
      as (s & s2 & d' & _ & Hrec & Ho).
    destruct (recompute_statistics_returns _ _ Hrec)
      as (_ & _ & Hname & Hdisc & Hcons).
    destruct o.
    + destruct Ho as (_ & _ & ->). auto.
    + destruct Ho as (_ & _ & ->). auto.
    + destruct Ho as (_ & u' & _ & ->). auto.
    + destruct Ho as (_ & u' & _ & ->). auto.
Qed.

(** X8: when an operator returns, the right operand was a [Stat] and the
    data of the receiver is as long as the shorter of the two series (the
    pairs are taken with [zip]). After + and - the unit is the common unit
    of the operands; after * and / it is what [units_combining] returns on
    the two units. *)
Theorem X8_length_and_unit_on_return
    (o : Stat.operator) (other v : Stat.pyobj V) (self self' : Stat.t V) :
  Stat.method o other self = (Ok v, self') ->
  exists s : Stat.t V,
    other = Stat.PyStat s /\
    length (Stat.data self')
      = Nat.min (length (Stat.data self)) (length (Stat.data s)) /\
    match o with
    | Stat.Add | Stat.Sub =>
        Stat.unit self' = Stat.unit self /\ Stat.unit self' = Stat.unit s
    | Stat.Mul =>
        functions.units_combining [Stat.unit self; Stat.unit s] "*"
          = Ok (Stat.unit self')
    | Stat.Div =>
        functions.units_combining [Stat.unit self; Stat.unit s] "/"
          = Ok (Stat.unit self')
    end.
Proof.
  intros Hrun.
  destruct (operator_returns o other v self self' Hrun)
    as (s & s2 & d' & Hother & Hrec & Ho).
  destruct (recompute_statistics_returns _ _ Hrec)
    as (Hdata & Hunit & _).
  simpl in Hdata, Hunit. exists s. split; [exact Hother|].
  destruct o.
  - destruct Ho as (-> & Hu & ->). rewrite Hdata, length_zip_with.
    split; [reflexivity|]. split; congruence.
  - destruct Ho as (-> & Hu & ->). rewrite Hdata, length_zip_with.
    split; [reflexivity|]. split; congruence.
  - destruct Ho as (-> & u' & Hu & ->). simpl. rewrite Hdata, length_zip_with.
    split; [reflexivity|]. now rewrite <- Hunit.
  - destruct Ho as (Hdiv & u' & Hu & ->). simpl. rewrite Hdata.
    destruct (comprehension_lookup _ _ _ Hdiv) as [-> _].
    rewrite length_zip.
    split; [reflexivity|]. now rewrite <- Hunit.
Qed.

(** X9: each of the four operators raises [TypeError] on a right operand
    that is not a [Stat], and leaves the receiver as it was. *)
Theorem X9_operand_must_be_a_Stat
    (o : Stat.operator) (other : Stat.pyobj V) (self : Stat.t V) :
  (forall s, other <> Stat.PyStat s) ->
  Stat.method o other self = (Raise TypeError, self).
Proof.
  intros Hother.
  destruct other as [| | |s]; [| | |now destruct (Hother s)];
    destruct o; reflexivity.
Qed.

(** X10: [__sub__] on a [Stat] of another unit raises [ValueError] and
    leaves the receiver as it was; on a [Stat] of the same unit it
    replaces the data by the element-wise difference and keeps the unit,
    and returns [None] unless a reduction raises. *)
Theorem X10_sub_checks_then_subtracts (self o : Stat.t V) :
  (Stat.unit self <> Stat.unit o ->
   Stat.__sub__ (Stat.PyStat o) self = (Raise ValueError, self)) /\
  (Stat.unit self = Stat.unit o ->
   let r := Stat.__sub__ (Stat.PyStat o) self in
   Stat.data r.2 = zip_with Qminus (Stat.data self) (Stat.data o) /\
   Stat.unit r.2 = Stat.unit self /\
   (raises r.1 = false -> r.1 = Ok Stat.PyNone)).
Proof.
  split.
  - intros Hu. unfold Stat.__sub__, Stat.bind, Stat.read. simpl.
    now rewrite bool_decide_true.
  - intros Hu r. subst r.
    assert (Hrun : Stat.__sub__ (Stat.PyStat o) self =
              Stat.bind Stat.recompute_statistics
                (fun _ => Stat.ret Stat.PyNone)
                (Stat.set_data
                   (zip_with Qminus (Stat.data self) (Stat.data o)) self)).
    { unfold Stat.__sub__. unfold Stat.bind at 1, Stat.read at 1. simpl.
      now rewrite bool_decide_false by (intros H; now apply H). }
    rewrite Hrun.
    set (s1 := Stat.set_data _ self).
    pose proof (recompute_statistics_frame s1) as [Hd Hframe].
    unfold Stat.bind.
    destruct (Stat.recompute_statistics s1) as [[[]|e] s2]; simpl in *;
      rewrite Hd, Hframe; (split; [reflexivity|]);
      (split; [reflexivity|]); intros H; try discriminate H; reflexivity.
Qed.

(** A comprehension whose function can only raise [e] raises [e] as soon
    as one element raises. *)
Lemma comprehension_raises {A B} (f : A -> res B) (l : list A) (e : exn) :
  (forall x e', f x = Raise e' -> e' = e) ->
  (exists x, x ∈ l /\ f x = Raise e) ->
  comprehension f l = Raise e.
Proof.
  intros Honly (x & Hx & Hfx).
  induction l as [|y l IH]; [now apply elem_of_nil in Hx|].
  simpl. destruct (f y) as [b|e'] eqn:Hy; simpl.
  - apply elem_of_cons in Hx as [->|Hx]; [congruence|].
    now rewrite (IH Hx).
  - now rewrite (Honly y e' Hy).
Qed.

(** X11: [__truediv__] raises [ZeroDivisionError] when a divisor paired
    with an entry of the receiver is zero, and then leaves the receiver as
    it was: the quotients are computed before anything is assigned. *)
Theorem X11_division_by_zero_leaves_the_receiver
    (self o : Stat.t V) (i : nat) (x y : Q) :
  Stat.data self !! i = Some x -> Stat.data o !! i = Some y -> (y == 0)%Q ->
  Stat.__truediv__ (Stat.PyStat o) self = (Raise ZeroDivisionError, self).
Proof.
  intros Hx Hy Hzero.
  assert (Hdiv : comprehension Stat.truediv (zip (Stat.data self) (Stat.data o))
                 = Raise ZeroDivisionError).
  { apply comprehension_raises.
    - intros [a b] e'. unfold Stat.truediv. simpl.
      destruct (Qeq_bool b 0); congruence.
    - exists (x, y). split.
      + apply list_elem_of_lookup. exists i.
        now apply lookup_zip_Some.
      + unfold Stat.truediv. simpl.
        now rewrite (proj2 (Qeq_bool_iff y 0) Hzero). }
  unfold Stat.__truediv__.
  unfold Stat.bind at 1, Stat.read at 1. simpl.
  unfold Stat.bind at 1, Stat.call at 1. now rewrite Hdiv.
Qed.

End StatMore.

Lemma C10_witness :
  let a := series "a" [1; 2]%Q (Some "g") in
  let b := series "b" [4; 8]%Q (Some "g") in
  let c := series "c" [4; 8]%Q (Some "mL") in
  (exists a' : Stat.t spec.value,
      Stat.method (red := spec.reductions) Stat.Add (Stat.PyStat b) a
        = (Ok Stat.PyNone, a') /\
      Stat.data a' = [5; 10]%Q /\ Stat.unit a' = Some "g") /\
  (exists a' : Stat.t spec.value,
      Stat.method (red := spec.reductions) Stat.Sub (Stat.PyStat b) a
        = (Ok Stat.PyNone, a') /\
      Stat.data a' = [-3; -6]%Q /\ Stat.unit a' = Some "g") /\
  (exists a' : Stat.t spec.value,
      Stat.method (red := spec.reductions) Stat.Mul (Stat.PyStat c) a
        = (Ok Stat.PyNone, a') /\
      Stat.data a' = [4; 16]%Q /\ Stat.unit a' = Some "g.mL") /\
  (exists a' : Stat.t spec.value,
      Stat.method (red := spec.reductions) Stat.Div (Stat.PyStat c) a
        = (Ok Stat.PyNone, a') /\
      Stat.data a' = [1 # 4; 2 # 8]%Q /\ Stat.unit a' = Some "g/mL") /\
  Stat.binop (red := spec.reductions) Stat.Add Stat.PyNone c
    = (Raise TypeError, Stat.PyNone).
Proof.
  intros a b c.
  assert (Hred : forall d : list Q, reductions_return (red := spec.reductions) d)
    by (intros d; repeat split).
  split; [|split; [|split; [|split]]].
  - destruct (C10_operators_return_None (red := spec.reductions)
                Stat.Add Stat.Add a b c [5; 10]%Q (Some "g"))
      as [(a' & Hrun & Hdata & Hunit & _) _];
      [repeat split|apply Hred|].
    exists a'. now repeat split.
  - destruct (C10_operators_return_None (red := spec.reductions)
                Stat.Sub Stat.Add a b c [-3; -6]%Q (Some "g"))
      as [(a' & Hrun & Hdata & Hunit & _) _];
      [repeat split|apply Hred|].
    exists a'. now repeat split.
  - destruct (C10_operators_return_None (red := spec.reductions)
                Stat.Mul Stat.Add a c c [4; 16]%Q (Some "g.mL"))
      as [(a' & Hrun & Hdata & Hunit & _) _];
      [split; vm_compute; reflexivity|apply Hred|].
    exists a'. now repeat split.
  - destruct (C10_operators_return_None (red := spec.reductions)
                Stat.Div Stat.Add a c c [1 # 4; 2 # 8]%Q (Some "g/mL"))
      as [(a' & Hrun & Hdata & Hunit & _) _];
      [|apply Hred|].
    + split; [vm_compute; reflexivity|]. split; [vm_compute; reflexivity|].
      intros [|[|i]] x y Hx Hy; simpl in Hx, Hy; try discriminate Hx;
        injection Hy as <-; discriminate.
    + exists a'. now repeat split.
  - reflexivity.
Defined.

Lemma X7_witness :
  consistent (red := spec.reductions) (series "a" [1; 2]%Q (Some "g")) /\
  consistent (red := spec.reductions)
    (Stat.method (red := spec.reductions) Stat.Div
       (Stat.PyStat (series "b" [4; 8]%Q (Some "mL")))
       (series "a" [1; 2]%Q (Some "g"))).2.
Proof.
  destruct (X7_statistics_follow_the_data (red := spec.reductions))
    as [Hinit Hop].
  split.
  - apply (Hinit "a" [1; 2]%Q (Some "g") false). reflexivity.
  - apply (Hop Stat.Div (Stat.PyStat (series "b" [4; 8]%Q (Some "mL")))
             Stat.PyNone (series "a" [1; 2]%Q (Some "g"))).
    vm_compute. reflexivity.
Defined.

Lemma X8_witness :
  let r := Stat.method (red := spec.reductions) Stat.Div
             (Stat.PyStat (series "b" [4; 8; 16]%Q (Some "mL")))
             (series "a" [1; 2]%Q (Some "g")) in
  length (Stat.data r.2) = 2%nat /\ Stat.unit r.2 = Some "g/mL".
Proof.
  intros r.
  destruct (X8_length_and_unit_on_return (red := spec.reductions) Stat.Div
              (Stat.PyStat (series "b" [4; 8; 16]%Q (Some "mL"))) Stat.PyNone
              (series "a" [1; 2]%Q (Some "g")) r.2)
    as (s & Hs & Hlen & Hunit); [vm_compute; reflexivity|].
  inversion Hs; subst s. split; [exact Hlen|].
  vm_compute in Hunit. now inversion Hunit.
Defined.

Lemma X9_witness :
  Stat.method (red := spec.reductions) Stat.Mul (Stat.PyNum 2)
    (series "a" [1; 2]%Q (Some "g"))
  = (Raise TypeError, series "a" [1; 2]%Q (Some "g")).
Proof. apply X9_operand_must_be_a_Stat. intros s. discriminate. Defined.

Lemma X10_witness :
  let a := series "a" [5; 7]%Q (Some "g") in
  Stat.__sub__ (red := spec.reductions)
      (Stat.PyStat (series "b" [1; 2]%Q (Some "mL"))) a
    = (Raise ValueError, a) /\
  Stat.data (Stat.__sub__ (red := spec.reductions)
               (Stat.PyStat (series "b" [1; 2]%Q (Some "g"))) a).2
    = [4; 5]%Q.
Proof.
  intros a. split.
  - apply (X10_sub_checks_then_subtracts (red := spec.reductions) a).
    discriminate.
  - apply (X10_sub_checks_then_subtracts (red := spec.reductions) a
             (series "b" [1; 2]%Q (Some "g"))).
    reflexivity.
Defined.

Lemma X11_witness :
  let a := series "a" [1; 2]%Q (Some "g") in
  Stat.__truediv__ (red := spec.reductions)
      (Stat.PyStat (series "b" [4; 0]%Q (Some "mL"))) a
    = (Raise ZeroDivisionError, a).
Proof.
  intros a.
  apply (X11_division_by_zero_leaves_the_receiver (red := spec.reductions)
           a (series "b" [4; 0]%Q (Some "mL")) 1 2%Q 0%Q); reflexivity.
Defined.

(** ** The frequency dict of Stat *)

Lemma Qeq_bool_trans_l (a b c : Q) :
  Qeq_bool a b = true -> Qeq_bool a c = Qeq_bool b c.
Proof.
  intros Hab. apply Qeq_bool_iff in Hab.
  destruct (Qeq_bool b c) eqn:Hbc.
  - apply Qeq_bool_iff in Hbc. apply Qeq_bool_iff. now rewrite Hab.
  - apply not_true_is_false. intros Hac. apply Qeq_bool_iff in Hac.
    rewrite Hab in Hac. apply Qeq_bool_iff in Hac. congruence.
Qed.

Lemma total_count_dict_count (x : Q) (dt : list (Q * Z)) :
  total_count (Stat.dict_count x dt) = (total_count dt + 1)%Z.
Proof.
  induction dt as [|[k c] dt IH]; [reflexivity|]. simpl.
  destruct (Qeq_bool k x).
  - unfold total_count. simpl. lia.
  - change (total_count ((k, c) :: Stat.dict_count x dt))
      with (c + total_count (Stat.dict_count x dt))%Z.
    change (total_count ((k, c) :: dt)) with (c + total_count dt)%Z.
    lia.
Qed.

Lemma dict_get_dict_count (k x : Q) (dt : list (Q * Z)) :
  Stat.dict_get k (Stat.dict_count x dt) =
    if Qeq_bool x k then Some (default 0%Z (Stat.dict_get k dt) + 1)%Z
    else Stat.dict_get k dt.
Proof.
  induction dt as [|[k' c] dt IH]; simpl.
  - now destruct (Qeq_bool x k).
  - destruct (Qeq_bool k' x) eqn:Hk'x; simpl.
    + rewrite (Qeq_bool_trans_l k' x k Hk'x).
      now destruct (Qeq_bool x k).
    + destruct (Qeq_bool k' k) eqn:Hk'k; [|exact IH].
      destruct (Qeq_bool x k) eqn:Hxk; [|reflexivity].
      apply Qeq_bool_iff in Hk'k, Hxk.
      assert (Hcontra : Qeq_bool k' x = true)
        by (apply Qeq_bool_iff; now rewrite Hk'k, Hxk).
      congruence.
Qed.

Lemma occurrences_cons (k x : Q) (l : list Q) :
  occurrences k (x :: l) =
    ((if Qeq_bool x k then 1 else 0) + occurrences k l)%Z.
Proof.
  unfold occurrences. simpl. destruct (Qeq_bool x k); simpl; lia.
Qed.

Lemma occurrences_nonneg (k : Q) (l : list Q) : (0 <= occurrences k l)%Z.
Proof. unfold occurrences. lia. Qed.

Lemma fold_dict_count (k : Q) (l : list Q) (acc : list (Q * Z)) :
  let dt := fold_left (fun dt data => Stat.dict_count data dt) l acc in
  total_count dt = (total_count acc + Z.of_nat (length l))%Z /\
  (keys_distinct acc -> keys_distinct dt) /\
  Stat.dict_get k dt =
    match Stat.dict_get k acc with
    | Some c => Some (c + occurrences k l)%Z
    | None => if (occurrences k l =? 0)%Z then None
              else Some (occurrences k l)
    end.
Proof.
  revert acc. induction l as [|x l IH]; intros acc; simpl.
  - split; [lia|]. split; [auto|].
    destruct (Stat.dict_get k acc); [f_equal; unfold occurrences; simpl; lia|].
    reflexivity.
  - destruct (IH (Stat.dict_count x acc)) as (Hsum & Hkeys & Hget).
    split; [rewrite Hsum, total_count_dict_count; lia|]. split.
    + intros Hacc. apply Hkeys. clear -Hacc.
      induction acc as [|[k' c] acc IHacc]; simpl; [split; [constructor|exact I]|].
      destruct Hacc as [Hfresh Hacc].
      destruct (Qeq_bool k' x) eqn:Hk'x; simpl; [now split|].
      split; [|now apply IHacc].
      clear IHacc Hacc. induction Hfresh as [|[k2 c2] acc Hk2 Hrest IHf]; simpl.
      * constructor; [|constructor]. simpl. intros Hx.
        assert (Qeq_bool k' x = true)
          by (apply Qeq_bool_iff; now symmetry).
        congruence.
      * destruct (Qeq_bool k2 x); constructor; assumption.
    + rewrite Hget, dict_get_dict_count, occurrences_cons.
      pose proof (occurrences_nonneg k l) as Hnn.
      destruct (Qeq_bool x k); destruct (Stat.dict_get k acc) as [c|]; simpl.
      * f_equal; lia.
      * replace (1 + occurrences k l =? 0)%Z with false
          by (symmetry; apply Z.eqb_neq; lia).
        f_equal; lia.
      * f_equal; lia.
      * now rewrite Z.add_0_l.
Qed.

(** X12: the frequency dict of a [Stat] counts its data. The counts add
    up to the number of entries; a number that occurs n > 0 times has the
    count n, under one key only, and a number that does not occur has no
    key. *)
Theorem X12_frequency_dict_counts_the_data
    (V : Type) (self : Stat.t V) :
  total_count (Stat.freq_dict self) = Z.of_nat (length (Stat.data self)) /\
  keys_distinct (Stat.freq_dict self) /\
  forall k : Q,
    Stat.dict_get k (Stat.freq_dict self) =
      if (occurrences k (Stat.data self) =? 0)%Z then None
      else Some (occurrences k (Stat.data self)).
Proof.
  unfold Stat.freq_dict.
  split; [|split].
  - now destruct (fold_dict_count 0 (Stat.data self) []) as (-> & _ & _).
  - destruct (fold_dict_count 0 (Stat.data self) []) as (_ & Hkeys & _).
    now apply Hkeys.
  - intros k.
    now destruct (fold_dict_count k (Stat.data self) []) as (_ & _ & ->).
Qed.

Example frequency_dict_of_grades :
  Stat.freq_dict (series "grades" [3; 1; 3; (6 # 2); 2]%Q None)
    = [(3, 3%Z); (1, 1%Z); (2, 1%Z)]%Q.
Proof. reflexivity. Qed.

(** ** More on GrowthMonitoring *)

Section GrowthMore.

Local Open Scope R_scope.

Lemma comprehension_raises_in {A B} (f : A -> res B) (l : list A) (e : exn) :
  (forall x e', x ∈ l -> f x = Raise e' -> e' = e) ->
  (exists x, x ∈ l /\ f x = Raise e) ->
  comprehension f l = Raise e.
Proof.
  intros Honly (x & Hx & Hfx).
  induction l as [|y l IH]; [now apply elem_of_nil in Hx|].
  simpl. destruct (f y) as [b|e'] eqn:Hy; simpl.
  - apply elem_of_cons in Hx as [->|Hx]; [congruence|].
    rewrite IH; [reflexivity| |exact Hx].
    intros z e' Hz. apply Honly. now apply elem_of_cons; right.
  - rewrite (Honly y e'); [reflexivity| |exact Hy].
    apply elem_of_cons. now left.
Qed.

Lemma lt0_clamped (d : npfloat) :
  GrowthMonitoring.lt0 (if GrowthMonitoring.lt0 d then Fin 0 else d) = false.
Proof.
  destruct (GrowthMonitoring.lt0 d) eqn:Hd; [|exact Hd].
  simpl. destruct (Rlt_dec 0 0); [lra|reflexivity].
Qed.

Lemma lt0_doubling_time (m : npfloat) :
  GrowthMonitoring.lt0 m = false ->
  GrowthMonitoring.lt0 (GrowthMonitoring.doubling_time m) = false.
Proof.
  pose proof ln2_positive as Hln2.
  destruct m as [x| | |]; intros Hm; simpl in *;
    unfold GrowthMonitoring.doubling_time; simpl.
  - destruct (Rlt_dec x 0) as [|Hx]; [discriminate Hm|].
    destruct (Req_dec_T x 0) as [->|Hne]; simpl.
    + destruct (Rlt_dec 0 0); [lra|reflexivity].
    + destruct (Rlt_dec (ln 2 / x) 0) as [Hneg|]; [|reflexivity].
      assert (0 < ln 2 / x) by (apply Rdiv_lt_0_compat; lra). lra.
  - destruct (Rlt_dec 0 0); [lra|reflexivity].
  - discriminate Hm.
  - reflexivity.
Qed.

(** The entries after the first of a constructed GrowthMonitoring. *)
Lemma constructed_entries (name : string) (data time : list R)
    (gm : GrowthMonitoring.t) :
  GrowthMonitoring.__init__ name data time = Ok gm ->
  GrowthMonitoring.data gm = data /\ GrowthMonitoring.time gm = time /\
  GrowthMonitoring.µ gm !! 0%nat = Some (Fin 0) /\
  length (GrowthMonitoring.µ gm) = S (length data - 1) /\
  GrowthMonitoring.td gm
    = GrowthMonitoring.doubling_time <$> GrowthMonitoring.µ gm /\
  forall i : nat, (i + 1 < length data)%nat ->
    exists m : npfloat,
      GrowthMonitoring.growth_rate data time i = Ok m /\
      GrowthMonitoring.µ gm !! (i + 1)%nat = Some m.
Proof.
  intros Hgm. unfold GrowthMonitoring.__init__ in Hgm.
  destruct (comprehension _ _) as [rates|e] eqn:Hrates; simpl in Hgm;
    [|discriminate Hgm].
  injection Hgm as <-.
  cbn [GrowthMonitoring.td GrowthMonitoring.µ GrowthMonitoring.data
       GrowthMonitoring.time].
  destruct (comprehension_lookup _ _ _ Hrates) as [Hlen Hlook].
  rewrite length_seq in Hlen.
  repeat (split; [reflexivity || (simpl; now rewrite Hlen)|]).
  intros i Hi.
  destruct (Hlook i i) as (m & Hm & Hfm); [apply lookup_seq; lia|].
  exists m. split; [exact Hfm|].
  replace (i + 1)%nat with (S i) by lia. exact Hm.
Qed.

(** X13: a constructed GrowthMonitoring has one growth rate and one
    doubling time per quantity, except that it has one of each when there
    is no quantity at all; a single quantity is never looked at, whatever
    its sign. *)
Theorem X13_one_rate_per_quantity :
  (forall (name : string) (data time : list R) (gm : GrowthMonitoring.t),
      GrowthMonitoring.__init__ name data time = Ok gm ->
      length (GrowthMonitoring.µ gm) = Nat.max 1 (length data) /\
      length (GrowthMonitoring.td gm) = Nat.max 1 (length data)) /\
  (forall (name : string) (time : list R),
      exists gm : GrowthMonitoring.t,
        GrowthMonitoring.__init__ name [] time = Ok gm /\
        GrowthMonitoring.µ gm = [Fin 0] /\ GrowthMonitoring.td gm = [Fin 0]) /\
  (forall (name : string) (q : R) (time : list R),
      exists gm : GrowthMonitoring.t,
        GrowthMonitoring.__init__ name [q] time = Ok gm /\
        GrowthMonitoring.µ gm = [Fin 0] /\ GrowthMonitoring.td gm = [Fin 0]).
Proof.
  assert (Htd0 : GrowthMonitoring.doubling_time (Fin 0) = Fin 0)
    by (now apply doubling_time_value).
  split; [|split].
  - intros name data time gm Hgm.
    destruct (constructed_entries name data time gm Hgm)
      as (_ & _ & _ & Hlen & Htd & _).
    rewrite Htd, length_fmap, Hlen. lia.
  - intros name time. eexists. split; [reflexivity|]. simpl.
    now rewrite Htd0.
  - intros name q time. eexists. split; [reflexivity|]. simpl.
    now rewrite Htd0.
Qed.

Lemma X13_witness :
  exists gm : GrowthMonitoring.t,
    GrowthMonitoring.__init__ "culture" [100; 200] [0; 10] = Ok gm /\
    length (GrowthMonitoring.µ gm) = 2%nat /\
    length (GrowthMonitoring.td gm) = 2%nat.
Proof.
  destruct X13_one_rate_per_quantity as (Hlen & _ & _).
  eexists. split; [apply doubling_series_constructed|].
  exact (Hlen _ _ _ _ (doubling_series_constructed "culture")).
Defined.

(** X14: with at least two quantities and a time for each, a quantity
    that is zero or negative makes the constructor raise [ValueError]. *)
Theorem X14_nonpositive_quantity_raises
    (name : string) (data time : list R) (k : nat) (q : R) :
  (2 <= length data)%nat -> (length data <= length time)%nat ->
  data !! k = Some q -> q <= 0 ->
  GrowthMonitoring.__init__ name data time = Raise ValueError.
Proof.
  intros Hlen Htime Hk Hq.
  assert (Hraise : comprehension (GrowthMonitoring.growth_rate data time)
                     (seq 0 (length data - 1)) = Raise ValueError).
  { apply comprehension_raises_in.
    - intros i e' Hi Hfi. apply elem_of_seq in Hi.
      destruct (lookup_lt_is_Some_2 data i) as [b Hb]; [lia|].
      destruct (lookup_lt_is_Some_2 data (i + 1)) as [a Ha]; [lia|].
      destruct (lookup_lt_is_Some_2 time i) as [t0 Ht0]; [lia|].
      destruct (lookup_lt_is_Some_2 time (i + 1)) as [t1 Ht1]; [lia|].
      unfold GrowthMonitoring.growth_rate, getitem in Hfi.
      rewrite Ha, Hb, Ht1, Ht0 in Hfi. simpl in Hfi.
      unfold GrowthMonitoring.log in Hfi.
      destruct (Rlt_dec 0 a); simpl in Hfi; [|congruence].
      destruct (Rlt_dec 0 b); simpl in Hfi; congruence.
    - pose proof (lookup_lt_Some _ _ _ Hk) as Hklt.
      exists (k - 1)%nat. split; [apply elem_of_seq; lia|].
      destruct (lookup_lt_is_Some_2 data (k - 1)) as [b Hb]; [lia|].
      destruct (lookup_lt_is_Some_2 data (k - 1 + 1)) as [a Ha]; [lia|].
      unfold GrowthMonitoring.growth_rate, getitem.
      rewrite Ha, Hb. simpl. unfold GrowthMonitoring.log.
      destruct k as [|k].
      + simpl in Hb. assert (b = q) by congruence. subst b.
        destruct (Rlt_dec 0 a); simpl; [|reflexivity].
        destruct (Rlt_dec 0 q); [lra|reflexivity].
      + replace (S k - 1 + 1)%nat with (S k) in Ha by lia.
        assert (a = q) by congruence. subst a.
        destruct (Rlt_dec 0 q); [lra|reflexivity]. }
  unfold GrowthMonitoring.__init__. now rewrite Hraise.
Qed.

Lemma X14_witness :
  GrowthMonitoring.__init__ "culture" [100; 0] [0; 10] = Raise ValueError.
Proof.
  apply (X14_nonpositive_quantity_raises "culture" [100; 0] [0; 10] 1 0);
    [simpl; lia|simpl; lia|reflexivity|lra].
Defined.

(** X15: with at least two quantities, all positive, and fewer times
    than quantities, the constructor raises [IndexError]. *)
Theorem X15_missing_time_raises (name : string) (data time : list R) :
  (2 <= length data)%nat -> (length time < length data)%nat ->
  Forall (fun q => 0 < q) data ->
  GrowthMonitoring.__init__ name data time = Raise IndexError.
Proof.
  intros Hlen Htime Hpos.
  assert (Hraise : comprehension (GrowthMonitoring.growth_rate data time)
                     (seq 0 (length data - 1)) = Raise IndexError).
  { apply comprehension_raises_in.
    - intros i e' Hi Hfi. apply elem_of_seq in Hi.
      destruct (lookup_lt_is_Some_2 data i) as [b Hb]; [lia|].
      destruct (lookup_lt_is_Some_2 data (i + 1)) as [a Ha]; [lia|].
      unfold GrowthMonitoring.growth_rate, getitem in Hfi.
      rewrite Ha, Hb in Hfi. simpl in Hfi.
      rewrite (log_positive a (Forall_lookup_1 _ _ _ _ Hpos Ha)) in Hfi.
      simpl in Hfi.
      rewrite (log_positive b (Forall_lookup_1 _ _ _ _ Hpos Hb)) in Hfi.
      simpl in Hfi.
      destruct (time !! (i + 1)%nat); simpl in Hfi; [|congruence].
      destruct (time !! i); simpl in Hfi; congruence.
    - exists (length time - 1)%nat. split; [apply elem_of_seq; lia|].
      destruct (lookup_lt_is_Some_2 data (length time - 1)) as [b Hb]; [lia|].
      destruct (lookup_lt_is_Some_2 data (length time - 1 + 1)) as [a Ha];
        [lia|].
      unfold GrowthMonitoring.growth_rate, getitem.
      rewrite Ha, Hb. simpl.
      rewrite (log_positive a (Forall_lookup_1 _ _ _ _ Hpos Ha)). simpl.
      rewrite (log_positive b (Forall_lookup_1 _ _ _ _ Hpos Hb)). simpl.
      now rewrite (lookup_ge_None_2 time (length time - 1 + 1)) by lia. }
  unfold GrowthMonitoring.__init__. now rewrite Hraise.
Qed.

Lemma X15_witness :
  GrowthMonitoring.__init__ "culture" [100; 200; 400] [0; 10] = Raise IndexError.
Proof.
  apply X15_missing_time_raises; [simpl; lia|simpl; lia|].
  repeat constructor; lra.
Defined.

(** X16: whatever the times are, no growth rate and no doubling time of a
    constructed GrowthMonitoring is negative. *)
Theorem X16_rates_and_doubling_times_never_negative
    (name : string) (data time : list R) (gm : GrowthMonitoring.t) :
  GrowthMonitoring.__init__ name data time = Ok gm ->
  Forall (fun m => GrowthMonitoring.lt0 m = false) (GrowthMonitoring.µ gm) /\
  Forall (fun d => GrowthMonitoring.lt0 d = false) (GrowthMonitoring.td gm).
Proof.
  intros Hgm.
  destruct (constructed_entries name data time gm Hgm)
    as (_ & _ & H0 & Hlen & Htd & Hrates).
  assert (Hmu : Forall (fun m => GrowthMonitoring.lt0 m = false)
                  (GrowthMonitoring.µ gm)).
  { apply Forall_lookup. intros [|i] m Hm.
    - rewrite H0 in Hm. injection Hm as <-. simpl.
      destruct (Rlt_dec 0 0); [lra|reflexivity].
    - destruct (Hrates i) as (m' & Hrate & Hm').
      { apply lookup_lt_Some in Hm. lia. }
      replace (i + 1)%nat with (S i) in Hm' by lia.
      assert (m' = m) by congruence. subst m'.
      unfold GrowthMonitoring.growth_rate in Hrate.
      repeat match type of Hrate with
             | context [mbind _ ?r] =>
                 destruct r; simpl in Hrate; [|discriminate Hrate]
             end.
      injection Hrate as <-. apply lt0_clamped. }
  split; [exact Hmu|].
  rewrite Htd. apply Forall_fmap.
  eapply Forall_impl; [exact Hmu|]. intros m. apply lt0_doubling_time.
Qed.

Lemma X16_witness :
  exists gm : GrowthMonitoring.t,
    GrowthMonitoring.__init__ "culture" [100; 200] [0; 10] = Ok gm /\
    Forall (fun m => GrowthMonitoring.lt0 m = false) (GrowthMonitoring.µ gm) /\
    Forall (fun d => GrowthMonitoring.lt0 d = false) (GrowthMonitoring.td gm).
Proof.
  eexists. split; [apply doubling_series_constructed|].
  exact (X16_rates_and_doubling_times_never_negative _ _ _ _
           (doubling_series_constructed "culture")).
Defined.

End GrowthMore.

(** ** More on Denombrement *)

Lemma fold_collect_contributions (l : list (Z * option Z)) (acc : list Q) :
  fold_left Denombrement.collect l acc = acc ++ omap contribution l.
Proof.
  revert acc. induction l as [|[dilution [ufc|]] l IH]; intros acc; simpl.
  - now rewrite app_nil_r.
  - rewrite IH. unfold contribution. simpl.
    replace ((30 <=? ufc)%Z && (ufc <=? 600)%Z)
      with (negb ((ufc <? 30)%Z || (ufc >? 600)%Z))
      by (rewrite negb_orb, Z.gtb_ltb, <- Z.leb_antisym, <- Z.leb_antisym;
          reflexivity).
    destruct ((ufc <? 30)%Z || (ufc >? 600)%Z); simpl; [reflexivity|].
    now rewrite <- app_assoc.
  - apply IH.
Qed.

(** X18: when no dilution exponent of the mapping is positive (a
    dilution is a negative power of ten), the sample of
    [get_ufc_per_ml] holds, in the order of the mapping, the count times
    10^(-dilution) of exactly the entries whose count is from 30 to 600,
    both bounds included; every value of the sample comes from such an
    entry and is a positive integer, at least the count itself. *)
Theorem X18_sample_of_countable_plates (self : Denombrement.t) :
  Forall (fun item => (item.1 <= 0)%Z) (Denombrement.dilutions self) ->
  Denombrement.ufcs self = omap contribution (Denombrement.dilutions self) /\
  forall v : Q, v ∈ Denombrement.ufcs self ->
    exists (dilution ufc : Z),
      (dilution, Some ufc) ∈ Denombrement.dilutions self /\
      (dilution <= 0)%Z /\ (30 <= ufc <= 600)%Z /\
      v = (inject_Z ufc * 10 ^ (- dilution))%Q /\
      (v == inject_Z (ufc * 10 ^ (- dilution)))%Q /\
      (inject_Z ufc <= v)%Q.
Proof.
  intros Hneg.
  assert (Hu : Denombrement.ufcs self
               = omap contribution (Denombrement.dilutions self))
    by apply (fold_collect_contributions _ []).
  split; [exact Hu|].
  intros v Hv. rewrite Hu in Hv.
  apply list_elem_of_omap in Hv as ([dilution [ufc|]] & Hin & Hc);
    unfold contribution in Hc; simpl in Hc; [|discriminate Hc].
  destruct ((30 <=? ufc)%Z && (ufc <=? 600)%Z) eqn:Hw; [|discriminate Hc].
  apply andb_true_iff in Hw as [Hlo Hhi].
  apply Z.leb_le in Hlo, Hhi. injection Hc as <-.
  pose proof (proj1 (Forall_forall _ _) Hneg _ Hin) as Hd. simpl in Hd.
  assert (Hint : (inject_Z ufc * 10 ^ (- dilution)
                  == inject_Z (ufc * 10 ^ (- dilution)))%Q).
  { rewrite inject_Z_mult, (Qpower.Zpower_Qpower 10 (- dilution)) by lia.
    reflexivity. }
  exists dilution, ufc.
  split; [exact Hin|]. split; [exact Hd|]. split; [lia|].
  split; [reflexivity|]. split; [exact Hint|].
  rewrite Hint, <- Zle_Qle.
  assert (0 < 10 ^ (- dilution))%Z by (apply Z.pow_pos_nonneg; lia).
  nia.
Qed.

Example sample_bounds_are_counted :
  Denombrement.ufcs
    (Denombrement.__init__ "bounds"
       [(-1, Some 29); (-1, Some 30); (-2, Some 600); (-2, Some 601)]%Z)
    = [300; 60000]%Q.
Proof. reflexivity. Qed.

(** X19: a plate that is not countable or whose count is outside 30..600
    does not change the estimate, wherever it stands in the mapping; nor
    does the name. *)
Theorem X19_skipped_plates_do_not_count
    (V : Type) (red : functions.Reductions V) (name name' : string)
    (before after : list (Z * option Z)) (item : Z * option Z) :
  skipped item ->
  Denombrement.get_ufc_per_ml
    (Denombrement.__init__ name (before ++ item :: after))
  = Denombrement.get_ufc_per_ml (Denombrement.__init__ name' (before ++ after)).
Proof.
  intros Hskip.
  assert (Hc : contribution item = None).
  { destruct item as [dilution [ufc|]]; unfold skipped, contribution in *;
      simpl in *; [|reflexivity].
    replace ((30 <=? ufc)%Z && (ufc <=? 600)%Z) with false; [reflexivity|].
    symmetry. apply andb_false_iff.
    destruct Hskip; [left|right]; apply Z.leb_gt; lia. }
  unfold Denombrement.get_ufc_per_ml, Denombrement.ufcs,
    Denombrement.__init__. simpl.
  rewrite !fold_collect_contributions, !omap_app. simpl.
  now rewrite Hc.
Qed.

Lemma X19_witness :
  Denombrement.get_ufc_per_ml (red := spec.reductions)
    (Denombrement.__init__ "E. coli"
       [(-4, None); (-5, Some 354); (-6, Some 35); (-7, Some 3)]%Z)
  = Denombrement.get_ufc_per_ml (red := spec.reductions)
      (Denombrement.__init__ "E. coli"
         [(-4, None); (-5, Some 354); (-6, Some 35)]%Z).
Proof.
  apply (X19_skipped_plates_do_not_count spec.value spec.reductions
           "E. coli" "E. coli"
           [(-4, None); (-5, Some 354); (-6, Some 35)]%Z [] (-7, Some 3)%Z).
  unfold skipped. simpl. lia.
Defined.

(** ** The binomial law *)

Section BinomialLaw.

Local Open Scope R_scope.

(** X20: [bernoulli_law] raises [ValueError] when the number of successes
    is negative or exceeds the number of trials. *)
Theorem X20_bernoulli_law_outside_the_trials (x n : Z) (p : R) :
  (x < 0 \/ n < x)%Z ->
  functions.bernoulli_law x n p = Raise ValueError.
Proof.
  intros Hx. unfold functions.bernoulli_law, functions.factorial.
  destruct (n <? 0)%Z eqn:Hn; [reflexivity|]. simpl.
  destruct (n - x <? 0)%Z eqn:Hnx; [reflexivity|]. simpl.
  destruct (x <? 0)%Z eqn:Hx0; [reflexivity|].
  apply Z.ltb_ge in Hn, Hnx, Hx0. lia.
Qed.

Lemma X20_witness : functions.bernoulli_law 5 3 (1 / 2) = Raise ValueError.
Proof. apply X20_bernoulli_law_outside_the_trials. right. lia. Defined.

End BinomialLaw.

(** ** Loops that return *)

Lemma for_each_app {A S} (l1 l2 : list A) (body : A -> S -> res S) (s : S) :
  for_each (l1 ++ l2) body s = (s' ← for_each l1 body s; for_each l2 body s').
Proof.
  revert s. induction l1 as [|x l1 IH]; intros s; simpl; [reflexivity|].
  destruct (body x s); simpl; [apply IH|reflexivity].
Qed.


Lemma comprehension_Forall {A B} (P : B -> Prop) (f : A -> res B) (l : list A) :
  (forall x, x ∈ l -> exists y, f x = Ok y /\ P y) ->
  exists ys, comprehension f l = Ok ys /\ Forall P ys /\ length ys = length l.
Proof.
  induction l as [|x l IH]; intros Hf; simpl.
  - exists []. repeat split. constructor.
  - destruct (Hf x) as (y & -> & Hy); [apply elem_of_cons; now left|].
    destruct IH as (ys & -> & Hys & Hlen).
    { intros z Hz. apply Hf. apply elem_of_cons. now right. }
    simpl. exists (y :: ys). repeat split; [now constructor|simpl; lia].
Qed.

(** ** Sums of numbers *)

Lemma fold_Qplus (l : list Q) (a : Q) :
  (fold_left Qplus l a == a + functions.pysum l)%Q.
Proof.
  unfold functions.pysum. revert a.
  induction l as [|x l IH]; intros a; simpl.
  - ring.
  - rewrite (IH (a + x)%Q), (IH (0 + x)%Q). ring.
Qed.

Lemma pysum_cons (x : Q) (l : list Q) :
  (functions.pysum (x :: l) == x + functions.pysum l)%Q.
Proof.
  unfold functions.pysum at 1. simpl. rewrite fold_Qplus. ring.
Qed.

Lemma pysum_nonneg (l : list Q) :
  Forall (fun x => 0 <= x)%Q l -> (0 <= functions.pysum l)%Q.
Proof.
  induction 1 as [|x l Hx _ IH]; [discriminate|].
  rewrite pysum_cons.
  apply (Qplus_le_compat 0 x 0 (functions.pysum l)); assumption.
Qed.

Lemma Qsquare_nonneg (a : Q) : (0 <= a * a)%Q.
Proof. destruct a as [n d]. unfold Qle, Qmult. simpl. nia. Qed.

Lemma pysum_zero (l : list Q) :
  Forall (fun x => x == 0)%Q l -> (functions.pysum l == 0)%Q.
Proof.
  induction 1 as [|x l Hx _ IH]; [reflexivity|].
  rewrite pysum_cons, Hx, IH. ring.
Qed.

Lemma filter_none {A} (f : A -> bool) (l : list A) :
  (forall x, x ∈ l -> f x = false) -> List.filter f l = [].
Proof.
  induction l as [|x l IH]; intros Hf; simpl; [reflexivity|].
  rewrite (Hf x) by (apply elem_of_cons; now left).
  apply IH. intros y Hy. apply Hf. apply elem_of_cons. now right.
Qed.

(** ** positioning_chi2 *)

Section PositioningChi2.

Variable number_text : Q -> string.

(** The expected counts below 5 among the first [n]. *)
Lemma small_loop (theo : list Q) (n : nat) (small : list functions.pretty) :
  (n <= length theo)%nat ->
  for_each (seq 0 n)
    (fun i small =>
       t ← getitem theo i;
       if Qle_bool 5 t then Ok small
       else Ok (small ++ [functions.prettify number_text t]))
    small
  = Ok (small ++ (functions.prettify number_text
                    <$> List.filter (fun t => negb (Qle_bool 5 t))
                          (take n theo))).
Proof.
  induction n as [|n IH]; intros Hn.
  - simpl. now rewrite app_nil_r.
  - rewrite seq_S, for_each_app, IH by lia. simpl.
    destruct (lookup_lt_is_Some_2 theo n) as [t Ht]; [lia|].
    rewrite (take_S_r _ _ _ Ht), List.filter_app, fmap_app.
    unfold getitem. rewrite Ht. simpl.
    destruct (Qle_bool 5 t); simpl.
    + now rewrite app_nil_r.
    + now rewrite app_assoc.
Qed.

(** A sum of terms that are, index by index, the squared deviation over
    the expected count is the chi-square statistic. *)
Lemma pysum_of_deviations (terms obs theo : list Q) :
  length terms = length obs ->
  (forall (i : nat) (y : Q), terms !! i = Some y ->
     exists o t : Q,
       obs !! i = Some o /\ theo !! i = Some t /\
       (y == (o - t) ^ 2 / t)%Q) ->
  (functions.pysum terms == chi2_statistic obs theo)%Q.
Proof.
  revert obs theo.
  induction terms as [|y terms IH]; intros [|o obs] theo Hlen Hterms;
    try discriminate Hlen; [reflexivity|].
  destruct (Hterms 0%nat y eq_refl) as (o' & t & Ho & Ht & Hy).
  destruct theo as [|t' theo]; [discriminate Ht|].
  simpl in Ho, Ht. injection Ho as <-. injection Ht as <-.
  rewrite pysum_cons. simpl.
  rewrite (IH obs theo); [|simpl in Hlen; lia|].
  - rewrite Hy. simpl. reflexivity.
  - intros i y' Hy'. exact (Hterms (S i) y' Hy').
Qed.

(** X22: when there is an expected count for every observed count and
    the expected counts used are all at least 5, [positioning_chi2]
    returns the chi-square statistic, the sum of (o - t)^2 / t over the
    observed counts o and their expected counts t; it is not negative,
    and it is zero when every observed count equals its expected
    count. *)
Theorem X22_positioning_chi2_statistic (obs theo : list Q) :
  (length obs <= length theo)%nat ->
  (forall (i : nat) (t : Q),
      (i < length obs)%nat -> theo !! i = Some t -> (5 <= t)%Q) ->
  exists x2 : Q,
    functions.positioning_chi2 number_text obs theo
      = Ok (functions.Chi2Value x2) /\
    (x2 == chi2_statistic obs theo)%Q /\
    (0 <= x2)%Q /\
    ((forall (i : nat) (o t : Q),
         obs !! i = Some o -> theo !! i = Some t -> (o == t)%Q) ->
     (x2 == 0)%Q).
Proof.
  intros Hlen Hbig. unfold functions.positioning_chi2.
  rewrite small_loop by exact Hlen.
  assert (Hnone : List.filter (fun t => negb (Qle_bool 5 t))
                    (take (length obs) theo) = []).
  { apply filter_none. intros t Ht.
    apply list_elem_of_lookup in Ht as [i Hi].
    apply lookup_take_Some in Hi as [Hi Hlt].
    apply negb_false_iff, Qle_bool_iff. now apply (Hbig i). }
  rewrite Hnone.
  change (Ok ([] ++ (functions.prettify number_text <$> [])) ≫= ?f)
    with (f []).
  cbv beta.
  change (0 <? length (@nil functions.pretty))%nat with false. cbv iota.
  destruct (comprehension_Forall
              (fun q => (0 <= q)%Q /\
                 ((forall (i : nat) (o t : Q),
                      obs !! i = Some o -> theo !! i = Some t -> (o == t)%Q) ->
                  (q == 0)%Q))
              (fun i =>
                 o ← getitem obs i;
                 t ← getitem theo i;
                 t' ← getitem theo i;
                 functions.div ((o - t) ^ 2) t')
              (seq 0 (length obs))) as (terms & Hrun & Hterms & _).
  { intros i Hi. apply elem_of_seq in Hi.
    destruct (lookup_lt_is_Some_2 obs i) as [o Ho]; [lia|].
    destruct (lookup_lt_is_Some_2 theo i) as [t Ht]; [lia|].
    assert (H5 : (5 <= t)%Q) by (apply (Hbig i); [lia|exact Ht]).
    assert (Hpos : (0 < t)%Q) by (eapply Qlt_le_trans; [|exact H5]; reflexivity).
    unfold getitem. rewrite Ho, Ht. simpl. unfold functions.div.
    destruct (Qeq_bool t 0) eqn:Hz.
    { apply Qeq_bool_iff in Hz. rewrite Hz in Hpos. discriminate Hpos. }
    eexists. split; [reflexivity|]. split.
    - apply Qle_shift_div_l; [exact Hpos|].
      rewrite Qmult_0_l. simpl. apply Qsquare_nonneg.
    - intros Hfit. rewrite (Hfit i o t Ho Ht).
      assert (H0 : ((t - t) ^ 2 == 0)%Q) by (simpl; ring).
      unfold Qdiv. rewrite H0. ring. }
  rewrite Hrun. simpl. eexists. split; [reflexivity|]. split; [|split].
  - destruct (comprehension_lookup _ _ _ Hrun) as [Hlent Hlook].
    rewrite length_seq in Hlent.
    apply pysum_of_deviations; [exact Hlent|].
    intros i y Hy.
    pose proof (lookup_lt_Some _ _ _ Hy) as Hi. rewrite Hlent in Hi.
    destruct (Hlook i i) as (y' & Hy' & Hfi); [now apply lookup_seq|].
    assert (y' = y) by congruence. subst y'.
    destruct (lookup_lt_is_Some_2 obs i) as [o Ho]; [lia|].
    destruct (lookup_lt_is_Some_2 theo i) as [t Ht]; [lia|].
    exists o, t. split; [exact Ho|]. split; [exact Ht|].
    unfold getitem in Hfi. rewrite Ho, Ht in Hfi. simpl in Hfi.
    unfold functions.div in Hfi.
    destruct (Qeq_bool t 0); [discriminate Hfi|].
    injection Hfi as <-. reflexivity.
  - apply pysum_nonneg. eapply Forall_impl; [exact Hterms|]. now intros q [].
  - intros Hfit. apply pysum_zero.
    eapply Forall_impl; [exact Hterms|]. intros q [_ Hq]. now apply Hq.
Qed.

(** An expected count below 5 among those checked is in the list. *)
Lemma small_elem (theo : list Q) (n i : nat) (t : Q) :
  (i < n)%nat -> theo !! i = Some t -> Qle_bool 5 t = false ->
  functions.prettify number_text t
    ∈ (functions.prettify number_text
         <$> List.filter (fun t => negb (Qle_bool 5 t)) (take n theo)).
Proof.
  intros Hi Ht Hsmall. apply list_elem_of_fmap. exists t. split; [reflexivity|].
  apply list_elem_of_In, List.filter_In. split.
  - apply list_elem_of_In, list_elem_of_lookup. exists i.
    now rewrite lookup_take_lt.
  - now rewrite Hsmall.
Qed.

(** X23: what [positioning_chi2] does instead of returning a statistic.
    With fewer expected counts than observed counts it raises
    [IndexError]. Otherwise, when an expected count that is checked is
    zero it raises [TypeError] ([prettify] returns the int 0, which
    [join] refuses); when one is below 5 and none is zero it returns a
    message that starts with "np_i < 5 for ". *)
Theorem X23_positioning_chi2_refusals (obs theo : list Q) :
  ((length theo < length obs)%nat ->
   functions.positioning_chi2 number_text obs theo = Raise IndexError) /\
  ((length obs <= length theo)%nat ->
   forall (i : nat) (t : Q),
     (i < length obs)%nat -> theo !! i = Some t -> (t == 0)%Q ->
     functions.positioning_chi2 number_text obs theo = Raise TypeError) /\
  ((length obs <= length theo)%nat ->
   (exists (i : nat) (t : Q),
       (i < length obs)%nat /\ theo !! i = Some t /\ (t < 5)%Q) ->
   (forall (i : nat) (t : Q),
       (i < length obs)%nat -> theo !! i = Some t -> ~ (t == 0)%Q) ->
   exists texts : string,
     functions.positioning_chi2 number_text obs theo
       = Ok (functions.Chi2Message ("np_i < 5 for " +:+ texts))).
Proof.
  split; [|split].
  - intros Hshort. unfold functions.positioning_chi2.
    replace (length obs)
      with (length theo + S (length obs - length theo - 1))%nat by lia.
    rewrite seq_app, for_each_app, small_loop by lia.
    change (Ok ?a ≫= ?f) with (f a). cbv beta. simpl.
    unfold getitem. now rewrite (lookup_ge_None_2 theo (length theo)) by lia.
  - intros Hlen i t Hi Ht Hzero. unfold functions.positioning_chi2.
    rewrite small_loop by exact Hlen.
    change (Ok ?a ≫= ?f) with (f a). cbv beta.
    rewrite app_nil_l.
    assert (Hsmall : Qle_bool 5 t = false).
    { apply not_true_is_false. intros H5. apply Qle_bool_iff in H5.
      rewrite Hzero in H5. now apply H5. }
    pose proof (small_elem theo (length obs) i t Hi Ht Hsmall) as Hin.
    set (small := functions.prettify number_text <$> _) in *.
    replace (0 <? length small)%nat with true.
    2:{ symmetry. apply Nat.ltb_lt. destruct small; [|simpl; lia].
        now apply elem_of_nil in Hin. }
    unfold functions.join_pretty.
    rewrite (comprehension_raises _ small TypeError); [reflexivity| |].
    + intros [|s] e'; congruence.
    + exists (functions.prettify number_text t). split; [exact Hin|].
      unfold functions.prettify.
      now rewrite (proj2 (Qeq_bool_iff t 0) Hzero).
  - intros Hlen (i & t & Hi & Ht & Hlt) Hnonzero.
    unfold functions.positioning_chi2.
    rewrite small_loop by exact Hlen.
    change (Ok ?a ≫= ?f) with (f a). cbv beta.
    rewrite app_nil_l.
    assert (Hsmall : Qle_bool 5 t = false).
    { apply not_true_is_false. intros H5. apply Qle_bool_iff in H5.
      now apply Qle_not_lt in H5. }
    pose proof (small_elem theo (length obs) i t Hi Ht Hsmall) as Hin.
    assert (Htexts : exists texts,
               comprehension
                 (fun v => match v with
                           | functions.PrettyText s => Ok s
                           | functions.PrettyZero => Raise TypeError
                           end)
                 (functions.prettify number_text
                    <$> List.filter (fun t => negb (Qle_bool 5 t))
                          (take (length obs) theo)) = Ok texts).
    { apply comprehension_returns. apply Forall_forall. intros v Hv.
      apply list_elem_of_fmap in Hv as (t' & -> & Ht').
      apply list_elem_of_In, List.filter_In in Ht' as [Ht' _].
      apply list_elem_of_In, list_elem_of_lookup in Ht' as [j Hj].
      apply lookup_take_Some in Hj as [Hj Hjlt].
      unfold functions.prettify.
      destruct (Qeq_bool t' 0) eqn:Hz; [|now eexists].
      apply Qeq_bool_iff in Hz. now destruct (Hnonzero j t' Hjlt Hj). }
    destruct Htexts as [texts Htexts].
    set (small := functions.prettify number_text <$> _) in *.
    replace (0 <? length small)%nat with true.
    2:{ symmetry. apply Nat.ltb_lt. destruct small; [|simpl; lia].
        now apply elem_of_nil in Hin. }
    unfold functions.join_pretty. rewrite Htexts. simpl.
    now eexists.
Qed.

End PositioningChi2.

Lemma X22_witness :
  exists x2 : Q,
    functions.positioning_chi2 (fun _ => "?") [10; 20]%Q [12; 18]%Q
      = Ok (functions.Chi2Value x2) /\
    (x2 == 5 # 9)%Q /\ (0 <= x2)%Q.
Proof.
  destruct (X22_positioning_chi2_statistic (fun _ => "?")
              [10; 20]%Q [12; 18]%Q) as (x2 & Hx2 & Hsum & Hpos & _).
  - simpl. lia.
  - intros [|[|i]] t Hi Ht; simpl in *; try lia;
      injection Ht as <-; discriminate.
  - exists x2. split; [exact Hx2|]. split; [|exact Hpos].
    rewrite Hsum. reflexivity.
Defined.

Lemma X23_witness :
  functions.positioning_chi2 (fun _ => "?") [10; 20]%Q [12]%Q
    = Raise IndexError /\
  functions.positioning_chi2 (fun _ => "?") [10; 20]%Q [12; 0]%Q
    = Raise TypeError /\
  exists texts : string,
    functions.positioning_chi2 (fun _ => "?") [10; 20]%Q [12; 3]%Q
      = Ok (functions.Chi2Message ("np_i < 5 for " +:+ texts)).
Proof.
  split; [|split].
  - apply (X23_positioning_chi2_refusals (fun _ => "?") [10; 20]%Q [12]%Q).
    simpl. lia.
  - apply (X23_positioning_chi2_refusals (fun _ => "?") [10; 20]%Q [12; 0]%Q)
      with (i := 1%nat) (t := 0%Q); [simpl; lia|simpl; lia|reflexivity|reflexivity].
  - apply (X23_positioning_chi2_refusals (fun _ => "?") [10; 20]%Q [12; 3]%Q).
    + simpl. lia.
    + exists 1%nat, 3%Q. repeat split. simpl. lia.
    + intros [|[|i]] t Hi Ht; simpl in *; try lia;
        injection Ht as <-; discriminate.
Defined.

(** ** contingency_chi2 *)

Lemma comprehension_ext {A B} (f g : A -> res B) (l : list A) :
  (forall x, x ∈ l -> f x = g x) -> comprehension f l = comprehension g l.
Proof.
  induction l as [|x l IH]; intros Hfg; simpl; [reflexivity|].
  rewrite (Hfg x) by (apply elem_of_cons; now left).
  rewrite IH; [reflexivity|].
  intros y Hy. apply Hfg. apply elem_of_cons. now right.
Qed.

Lemma comprehension_pure {A B} (h : A -> B) (l : list A) :
  comprehension (fun x => Ok (h x)) l = Ok (h <$> l).
Proof. induction l as [|x l IH]; simpl; [reflexivity|now rewrite IH]. Qed.

(** A loop over the indices of a list is a loop over the list. *)
Lemma comprehension_index_from {A B} (g : A -> res B) (pre l : list A) :
  comprehension (fun i => x ← getitem (pre ++ l) i; g x)
    (seq (length pre) (length l))
  = comprehension g l.
Proof.
  revert pre. induction l as [|x l IH]; intros pre; simpl; [reflexivity|].
  replace (getitem (pre ++ x :: l) (length pre)) with (Ok x)
    by (unfold getitem; now rewrite list_lookup_middle).
  simpl. destruct (g x) as [y|e]; simpl; [|reflexivity].
  assert (Hpre : pre ++ x :: l = (pre ++ [x]) ++ l)
    by (now rewrite <- app_assoc).
  assert (Hlen : S (length pre) = length (pre ++ [x]))
    by (rewrite length_app; simpl; lia).
  now rewrite Hpre, Hlen, IH.
Qed.

Lemma comprehension_index {A B} (g : A -> res B) (l : list A) :
  comprehension (fun i => x ← getitem l i; g x) (seq 0 (length l))
  = comprehension g l.
Proof. exact (comprehension_index_from g [] l). Qed.





Section Contingency.

Variable obs : list (list Q).
Variable c : nat.
Hypothesis obs_nonempty : obs <> [].
Hypothesis obs_rectangular : Forall (fun r => length r = c) obs.

Lemma rows_computed (table : list (list Q)) :
  comprehension (fun i => r ← getitem table i; Ok (functions.pysum r))
    (seq 0 (length table))
  = Ok (functions.pysum <$> table).
Proof.
  rewrite (comprehension_index (fun r => Ok (functions.pysum r))).
  apply comprehension_pure.
Qed.

Lemma first_row :
  exists first : list Q,
    getitem obs 0 = Ok first /\ head obs = Some first /\ length first = c.
Proof.
  destruct obs as [|first rest]; [contradiction|].
  exists first. repeat split. now inversion obs_rectangular.
Qed.

Lemma length_column_sums : length (column_sums obs) = c.
Proof.
  destruct first_row as (first & _ & Hhead & Hlen).
  unfold column_sums. now rewrite length_fmap, length_seq, Hhead.
Qed.

Lemma column_computed (j : nat) :
  (j < c)%nat ->
  comprehension (fun i => functions.cell obs i j) (seq 0 (length obs))
  = Ok ((fun r => default 0%Q (r !! j)) <$> obs).
Proof.
  intros Hj. unfold functions.cell.
  rewrite (comprehension_index (fun r => getitem r j)).
  rewrite <- comprehension_pure. apply comprehension_ext.
  intros r Hr. unfold getitem.
  pose proof (proj1 (Forall_forall _ _) obs_rectangular r Hr) as Hlen.
  destruct (lookup_lt_is_Some_2 r j) as [v Hv]; [simpl in Hlen; lia|].
  now rewrite Hv.
Qed.

Lemma columns_computed :
  comprehension
    (fun j =>
       column ← comprehension (fun i => functions.cell obs i j)
                   (seq 0 (length obs));
       Ok (functions.pysum column))
    (seq 0 c)
  = Ok (column_sums obs).
Proof.
  destruct first_row as (first & _ & Hhead & Hlen).
  unfold column_sums. rewrite Hhead. simpl. rewrite Hlen.
  rewrite <- comprehension_pure. apply comprehension_ext.
  intros j Hj. apply elem_of_seq in Hj.
  now rewrite column_computed by lia.
Qed.




End Contingency.

(** X24: [contingency_chi2] raises [IndexError] on a table without rows,
    and [ZeroDivisionError] on a table with rows of one same positive
    length whose counts add up to zero. *)
Theorem X24_contingency_chi2_errors :
  functions.contingency_chi2 [] = Raise IndexError /\
  forall (obs : list (list Q)) (c : nat),
    obs <> [] -> (0 < c)%nat -> Forall (fun r => length r = c) obs ->
    (functions.pysum (functions.pysum <$> obs) == 0)%Q ->
    functions.contingency_chi2 obs = Raise ZeroDivisionError.
Proof.
  split; [reflexivity|].
  intros obs c Hne Hc Hrect Htotal.
  destruct (first_row obs c Hne Hrect) as (first & Hfirst & _ & Hlen).
  pose proof (length_column_sums obs c Hne Hrect) as Hcols.
  unfold functions.contingency_chi2. cbv zeta.
  rewrite rows_computed, Hfirst.
  change (Ok ?a ≫= ?f) with (f a). cbv beta.
  change (Ok ?a ≫= ?f) with (f a). cbv beta.
  rewrite Hlen, (columns_computed obs c Hne Hrect).
  change (Ok ?a ≫= ?f) with (f a). cbv beta.
  apply Qeq_bool_iff in Htotal.
  destruct obs as [|r rest]; [contradiction|].
  destruct (column_sums (r :: rest)) as [|c0 col]; [simpl in Hcols; lia|].
  rewrite fmap_cons in *. simpl.
  unfold functions.div. now rewrite Htotal.
Qed.

Lemma X24_witness :
  functions.contingency_chi2 [[1; -1]; [-2; 2]]%Q = Raise ZeroDivisionError.
Proof.
  apply (proj2 X24_contingency_chi2_errors [[1; -1]; [-2; 2]]%Q 2%nat);
    [discriminate|lia|repeat constructor|reflexivity].
Defined.

Section PositiveTable.

Variable obs : list (list Q).
Variable c : nat.
Hypothesis obs_nonempty : obs <> [].
Hypothesis columns : (0 < c)%nat.
Hypothesis obs_rectangular : Forall (fun r => length r = c) obs.
Hypothesis obs_positive : Forall (Forall (fun x => 0 < x)%Q) obs.






End PositiveTable.


(** ** Witnesses on concrete inputs *)

Lemma X18_witness :
  exists (dilution ufc : Z),
    (dilution, Some ufc) ∈ Denombrement.dilutions plates /\
    (30 <= ufc <= 600)%Z /\
    (inject_Z 35 * 10 ^ 6 = inject_Z ufc * 10 ^ (- dilution))%Q.
Proof.
  destruct (proj2 (X18_sample_of_countable_plates plates
                     ltac:(repeat constructor; simpl; lia))
              (inject_Z 35 * 10 ^ 6)%Q)
    as (dilution & ufc & Hin & _ & Hwindow & Hv & _).
  - change (Denombrement.ufcs plates)
      with [(inject_Z 354 * 10 ^ 5)%Q; (inject_Z 35 * 10 ^ 6)%Q].
    apply elem_of_cons. right. apply elem_of_cons. now left.
  - now exists dilution, ufc.
Defined.
